(** * MSStageDriving: the driving stage of a transportable's plan

    A shallow embedding of [src/microsim/transportables/MSStageDriving.cpp]
    (Eclipse SUMO) and the properties of its activation, binding,
    termination, matching and reporting code.

    Conventions of the embedding
    - a C++ pointer is an [option]: [None] is [nullptr];
    - [double] is IEEE binary64, Rocq's primitive [float];
    - [std::set<std::string>] is a [gset string]; iteration over it goes
      through [set_iter], which lists the elements in ascending order;
    - vehicles change while a stage points at them, so a stage holds a
      vehicle address and every read goes through the vehicle store that is
      current at the time of the call;
    - calls into collaborators whose code lives elsewhere (vehicle, edge,
      insertion control, waiting registries, taxi device) are recorded, in
      program order, in a list of [Call]s;
    - dereferencing [nullptr] or [begin()] of an empty set has no defined
      behaviour: the embedding answers [Undefined] (or [None]). *)

From Stdlib Require Import ZArith String PrimFloat FloatOps FloatAxioms SpecFloat.
From stdpp Require Import gmap strings sorting.

Local Open Scope Z_scope.

(** ** Types declared outside the translated file *)

(** Modelled from the spec: [SUMOTime] is declared in
    utils/common/SUMOTime.h, which is not among the sources. The spec calls
    it a timestamp with [-1] as the "not set" value; in SUMO it is a signed
    64-bit integer count of simulation time units. A value is held as an
    integer; [SUMOTime_representable] says that it is a value of the type. *)
Definition SUMOTime : Type := Z.

(** In SUMO the type is a signed 64-bit integer; these are its values. *)
Definition SUMOTime_representable (t : SUMOTime) : Prop :=
  - 2 ^ 63 <= t < 2 ^ 63.

(** The value a signed 64-bit register holds after an operation whose
    exact result is [z]: [z] itself when it is representable, and [z]
    reduced modulo [2^64] into the range otherwise. *)
Definition SUMOTime_wrap (z : Z) : SUMOTime :=
  (z + 2 ^ 63) mod 2 ^ 64 - 2 ^ 63.

(** Subtraction of two [SUMOTime] values, on 64 bits. *)
Definition SUMOTime_sub (a b : SUMOTime) : SUMOTime := SUMOTime_wrap (a - b).

(** A time of a run of the simulation: not negative, and below the largest
    [SUMOTime] value. *)
Definition simulationTime (t : SUMOTime) : Prop := 0 <= t < 2 ^ 63 - 1.

(** [Position]: a point of three doubles; [Position::INVALID] is the
    constant of utils/geom/Position.h. *)
Record Position : Type := mkPosition { px : float; py : float; pz : float }.

Definition Position_INVALID : Position :=
  mkPosition (-1073741824)%float (-1073741824)%float (-1073741824)%float.

Inductive DepartDefinition : Type :=
| DEPART_GIVEN
| DEPART_NOW
| DEPART_TRIGGERED
| DEPART_CONTAINER_TRIGGERED.

Definition DepartDefinition_eqb (a b : DepartDefinition) : bool :=
  match a, b with
  | DEPART_GIVEN, DEPART_GIVEN
  | DEPART_NOW, DEPART_NOW
  | DEPART_TRIGGERED, DEPART_TRIGGERED
  | DEPART_CONTAINER_TRIGGERED, DEPART_CONTAINER_TRIGGERED => true
  | _, _ => false
  end.

Inductive MSStageType : Type :=
| WAITING_FOR_DEPART
| WAITING
| WALKING
| DRIVING
| ACCESS
| TRIP
| TRANSHIP.

Definition MSStageType_eqb (a b : MSStageType) : bool :=
  match a, b with
  | WAITING_FOR_DEPART, WAITING_FOR_DEPART
  | WAITING, WAITING
  | WALKING, WALKING
  | DRIVING, DRIVING
  | ACCESS, ACCESS
  | TRIP, TRIP
  | TRANSHIP, TRANSHIP => true
  | _, _ => false
  end.

Inductive SUMOVehicleClass : Type :=
| SVC_IGNORING
| SVC_PASSENGER
| SVC_TAXI
| SVC_BUS
| SVC_TRUCK
| SVC_RAIL.

(** An edge, as far as this file reads it. *)
Record MSEdge : Type := mkEdge {
  edge_getID : string;
  edge_getLength : float
}.

(** The transportable (person or container) that owns the stage. *)
Record MSTransportable : Type := mkTransportable {
  t_getID : string;
  t_isPerson : bool;
  t_departProcedure : DepartDefinition;   (* getParameter().departProcedure *)
  t_getNumRemainingStages : Z;
  t_getNumStages : Z
}.

(** A stopping place. The two waiting positions depend on the entity. *)
Record MSStoppingPlace : Type := mkStop {
  stop_getID : string;
  stop_getMyName : string;
  stop_getLaneEdge : MSEdge;                          (* getLane().getEdge() *)
  stop_getWaitPosition : MSTransportable -> Position;
  stop_getWaitingPositionOnLane : MSTransportable -> float
}.

(** A route: its edges and its distance query. Iterators into the route are
    indices; [begin()] is index 0. *)
Record MSRoute : Type := mkRoute {
  route_edges : list MSEdge;
  getDistanceBetween : float -> float -> nat -> nat -> float
}.

Definition route_begin (r : MSRoute) : nat := 0%nat.

(** The vehicle interface [SUMOVehicle], at one moment of the simulation.
    The class and its implementations are declared outside the translated
    file, so each method read here is a field holding its answer.
    [stopsAt] and [stopsAtEdge] are the vehicle's own answers to "does this
    vehicle call at that stop / on that edge"; the spec words them as the
    vehicle's route visiting the destination. *)
Record SUMOVehicle : Type := mkVehicle {
  getID : string;
  getParameter_line : string;                        (* getParameter().line *)
  getParameter_departProcedure : DepartDefinition;
  getVClass : SUMOVehicleClass;
  getRoute : MSRoute;
  getDepartPos : float;
  getPositionOnLane : float;
  getCurrentRouteEdge : nat;
  getLaneEdge : option MSEdge;            (* getLane(), then its getEdge() *)
  getVehEdge : option MSEdge;                                (* getEdge() *)
  getSpeed_veh : float;
  isStopped : bool;
  hasDeparted : bool;
  stopsAtEdge : option MSEdge -> bool;
  stopsAt : MSStoppingPlace -> bool
}.

(** Vehicle addresses and the vehicle store. *)
Definition VehPtr : Type := nat.
Definition VehicleStore : Type := VehPtr -> SUMOVehicle.

(** ** [std::set<std::string>] *)

Definition string_le (a b : string) : Prop := String.leb a b = true.

#[local] Instance string_le_dec (a b : string) : Decision (string_le a b).
Proof. unfold string_le. apply _. Defined.

(** Iteration order of a [std::set<std::string>]: ascending. *)
Definition set_iter (X : gset string) : list string :=
  merge_sort string_le (elements X).

(** [*X.begin()]: the first element in iteration order, if there is one. *)
Definition set_begin (X : gset string) : option string := head (set_iter X).

(** [X.count(x)]: 1 or 0. *)
Definition set_count (X : gset string) (x : string) : Z :=
  if decide (x ∈ X) then 1 else 0.

(** [joinToString(X, between)] of utils/common/ToString.h. *)
Fixpoint join (between : string) (l : list string) : string :=
  match l with
  | [] => EmptyString
  | [x] => x
  | x :: rest => x +:+ between +:+ join between rest
  end.

Definition joinToString (X : gset string) (between : string) : string :=
  join between (set_iter X).

(** ** The stage *)

Record MSStageDriving : Type := mkStage {
  (* members inherited from MSStage *)
  myDestination : option MSEdge;
  myDestinationStop : option MSStoppingPlace;
  myArrivalPos : float;
  myDeparted : SUMOTime;
  myArrived : SUMOTime;
  myType : MSStageType;
  (* members of MSStageDriving *)
  myLines : gset string;
  myVehicle : option VehPtr;
  myVehicleID : string;
  myVehicleLine : string;
  myVehicleVClass : SUMOVehicleClass;
  myVehicleDistance : float;
  myWaitingSince : SUMOTime;
  myWaitingEdge : option MSEdge;
  myWaitingPos : option float;      (* [None]: not yet assigned *)
  myStopWaitPos : Position;
  myIntendedVehicleID : string;
  myIntendedDepart : SUMOTime
}.

(** Field assignments. *)
Definition set_myArrivalPos (x : float) (s : MSStageDriving) : MSStageDriving :=
  mkStage (myDestination s) (myDestinationStop s) x (myDeparted s)
    (myArrived s) (myType s) (myLines s) (myVehicle s) (myVehicleID s)
    (myVehicleLine s) (myVehicleVClass s) (myVehicleDistance s)
    (myWaitingSince s) (myWaitingEdge s) (myWaitingPos s) (myStopWaitPos s)
    (myIntendedVehicleID s) (myIntendedDepart s).

Definition set_myArrived (x : SUMOTime) (s : MSStageDriving) : MSStageDriving :=
  mkStage (myDestination s) (myDestinationStop s) (myArrivalPos s)
    (myDeparted s) x (myType s) (myLines s) (myVehicle s) (myVehicleID s)
    (myVehicleLine s) (myVehicleVClass s) (myVehicleDistance s)
    (myWaitingSince s) (myWaitingEdge s) (myWaitingPos s) (myStopWaitPos s)
    (myIntendedVehicleID s) (myIntendedDepart s).

Definition set_myVehicleDistance (x : float) (s : MSStageDriving)
  : MSStageDriving :=
  mkStage (myDestination s) (myDestinationStop s) (myArrivalPos s)
    (myDeparted s) (myArrived s) (myType s) (myLines s) (myVehicle s)
    (myVehicleID s) (myVehicleLine s) (myVehicleVClass s) x
    (myWaitingSince s) (myWaitingEdge s) (myWaitingPos s) (myStopWaitPos s)
    (myIntendedVehicleID s) (myIntendedDepart s).

Definition set_myWaitingSince (x : SUMOTime) (s : MSStageDriving)
  : MSStageDriving :=
  mkStage (myDestination s) (myDestinationStop s) (myArrivalPos s)
    (myDeparted s) (myArrived s) (myType s) (myLines s) (myVehicle s)
    (myVehicleID s) (myVehicleLine s) (myVehicleVClass s)
    (myVehicleDistance s) x (myWaitingEdge s) (myWaitingPos s)
    (myStopWaitPos s) (myIntendedVehicleID s) (myIntendedDepart s).

(** The three assignments [proceed] makes to the waiting location. *)
Definition set_waiting_location (e : option MSEdge) (stopPos : Position)
    (pos : float) (s : MSStageDriving) : MSStageDriving :=
  mkStage (myDestination s) (myDestinationStop s) (myArrivalPos s)
    (myDeparted s) (myArrived s) (myType s) (myLines s) (myVehicle s)
    (myVehicleID s) (myVehicleLine s) (myVehicleVClass s)
    (myVehicleDistance s) (myWaitingSince s) e (Some pos) stopPos
    (myIntendedVehicleID s) (myIntendedDepart s).

(** Modelled from the spec: the constructor of the base class [MSStage]
    (MSStage.cpp is not among the sources) stores destination, destination
    stop, arrival position and stage type, and leaves the departure and
    arrival timestamps at [-1]. *)
Definition MSStage_ctor_departed : SUMOTime := -1.
Definition MSStage_ctor_arrived : SUMOTime := -1.

(** [MSStageDriving::MSStageDriving]. [myLines(lines.begin(), lines.end())]
    builds the set of the vector's elements; [myVehicleLine] is a
    default-constructed string; [myWaitingPos] has no initialiser. *)
Definition MSStageDriving_ctor (destination : option MSEdge)
    (toStop : option MSStoppingPlace) (arrivalPos : float)
    (lines : list string) (intendedVeh : string) (intendedDepart : SUMOTime)
  : MSStageDriving :=
  {| myDestination := destination;
     myDestinationStop := toStop;
     myArrivalPos := arrivalPos;
     myDeparted := MSStage_ctor_departed;
     myArrived := MSStage_ctor_arrived;
     myType := DRIVING;
     myLines := list_to_set lines;
     myVehicle := None;
     myVehicleID := "NULL";
     myVehicleLine := EmptyString;
     myVehicleVClass := SVC_IGNORING;
     myVehicleDistance := (-1)%float;
     myWaitingSince := -1;
     myWaitingEdge := None;
     myWaitingPos := None;
     myStopWaitPos := Position_INVALID;
     myIntendedVehicleID := intendedVeh;
     myIntendedDepart := intendedDepart |}.

(** [MSStageDriving::clone]: the vector handed to the constructor lists
    [myLines] from [begin()] to [end()]. *)
Definition clone (s : MSStageDriving) : MSStageDriving :=
  MSStageDriving_ctor (myDestination s) (myDestinationStop s) (myArrivalPos s)
    (set_iter (myLines s)) (myIntendedVehicleID s) (myIntendedDepart s).

(** ** Queries *)

Definition isWaiting4Vehicle (s : MSStageDriving) : bool :=
  match myVehicle s with
  | None => true
  | Some _ => false
  end.

Definition getEdge (veh : VehicleStore) (s : MSStageDriving) : option MSEdge :=
  match myVehicle s with
  | Some v =>
      match getLaneEdge (veh v) with
      | Some e => Some e
      | None => getVehEdge (veh v)
      end
  | None => myWaitingEdge s
  end.

Definition getFromEdge (s : MSStageDriving) : option MSEdge := myWaitingEdge s.

Definition getDestination (s : MSStageDriving) : option MSEdge :=
  myDestination s.

Definition getStageDescription (isPerson : bool) (s : MSStageDriving) : string :=
  if isWaiting4Vehicle s then "waiting for " +:+ joinToString (myLines s) ","
  else if isPerson then "driving" else "transport".

Definition isWaitingFor (vehicle : SUMOVehicle) (s : MSStageDriving) : bool :=
  (0 <? set_count (myLines s) (getID vehicle))
  || (0 <? set_count (myLines s) (getParameter_line vehicle))
  || ((0 <? set_count (myLines s) "ANY")
      && match myDestinationStop s with
         | None => stopsAtEdge vehicle (myDestination s)
         | Some stop => stopsAt vehicle stop
         end).

Definition getWaitingTime (now : SUMOTime) (s : MSStageDriving) : SUMOTime :=
  if isWaiting4Vehicle s then SUMOTime_sub now (myWaitingSince s) else 0.

Definition getSpeed (veh : VehicleStore) (s : MSStageDriving) : float :=
  match myVehicle s with
  | None => 0%float
  | Some v => getSpeed_veh (veh v)
  end.

Definition getEdges (s : MSStageDriving) : list (option MSEdge) :=
  let result := [] in
  let result := result ++ [getFromEdge s] in
  let result := result ++ [getDestination s] in
  result.

(** [getWaitingDescription]; [None] when the edge branch dereferences a
    null [myWaitingEdge]. *)
Definition getWaitingDescription (s : MSStageDriving) : option string :=
  if isWaiting4Vehicle s then
    match myDestinationStop s with
    | None =>
        match myWaitingEdge s with
        | Some e =>
            Some ("waiting for " +:+ joinToString (myLines s) ","
                  +:+ " at " +:+ ("edge '" +:+ edge_getID e +:+ "'"))
        | None => None
        end
    | Some stop =>
        Some ("waiting for " +:+ joinToString (myLines s) ","
              +:+ " at " +:+ ("busStop '" +:+ stop_getID stop +:+ "'"))
    end
  else Some EmptyString.

(** ** Binding and termination *)

(** The route distance a vehicle has covered: the query
    [getRoute().getDistanceBetween(getDepartPos(), getPositionOnLane(),
    getRoute().begin(), getCurrentRouteEdge())] that [setVehicle] and
    [setArrived] both make. *)
Definition routeDistanceSoFar (vehicle : SUMOVehicle) : float :=
  getDistanceBetween (getRoute vehicle)
    (getDepartPos vehicle) (getPositionOnLane vehicle)
    (route_begin (getRoute vehicle)) (getCurrentRouteEdge vehicle).

(** [MSStageDriving::setVehicle]. *)
Definition setVehicle (veh : VehicleStore) (v : VehPtr) (s : MSStageDriving)
  : MSStageDriving :=
  {| myDestination := myDestination s;
     myDestinationStop := myDestinationStop s;
     myArrivalPos := myArrivalPos s;
     myDeparted := myDeparted s;
     myArrived := myArrived s;
     myType := myType s;
     myLines := myLines s;
     myVehicle := Some v;
     myVehicleID := getID (veh v);
     myVehicleLine := getParameter_line (veh v);
     myVehicleVClass := getVClass (veh v);
     myVehicleDistance := routeDistanceSoFar (veh v);
     myWaitingSince := myWaitingSince s;
     myWaitingEdge := myWaitingEdge s;
     myWaitingPos := myWaitingPos s;
     myStopWaitPos := myStopWaitPos s;
     myIntendedVehicleID := myIntendedVehicleID s;
     myIntendedDepart := myIntendedDepart s |}.

(** Modelled from the spec: [MSStage::setArrived] (MSStage.cpp is not among
    the sources) is the generic stage-arrival bookkeeping, which sets the
    inherited arrival timestamp. Its return value is dropped by the caller. *)
Definition MSStage_setArrived (now : SUMOTime) (s : MSStageDriving)
  : MSStageDriving :=
  set_myArrived now s.

(** [MSStageDriving::setArrived]: the stage after the call and the string
    it returns. *)
Definition setArrived (veh : VehicleStore) (now : SUMOTime) (s : MSStageDriving)
  : MSStageDriving * string :=
  let s := MSStage_setArrived now s in
  let s :=
    match myVehicle s with
    | Some v =>
        let s :=
          set_myVehicleDistance
            (routeDistanceSoFar (veh v) - myVehicleDistance s)%float s in
        if isStopped (veh v)
        then set_myArrivalPos (getPositionOnLane (veh v)) s
        else s
    | None => set_myVehicleDistance (-1)%float s
    end in
  (s, EmptyString).

(** ** Activation *)

(** The previous stage, through the [MSStage] interface. *)
Record MSStage : Type := mkPrevious {
  prev_getStageType : MSStageType;
  prev_getOriginStop : option MSStoppingPlace;
  prev_getDestinationStop : option MSStoppingPlace;
  prev_getEdge : option MSEdge;
  prev_getEdgePos : SUMOTime -> float
}.

(** What [proceed] reads from the network. *)
Record MSNet : Type := mkNet {
  (* getVehicleControl().getVehicle(id) *)
  getVehicle : string -> option VehPtr;
  (* the vehicles, as they are during the call *)
  vehicles : VehicleStore;
  (* edge->getWaitingVehicle(transportable, position) *)
  getWaitingVehicle : MSEdge -> MSTransportable -> float -> option VehPtr
}.

(** The calls [proceed] makes into its collaborators. *)
Inductive Call : Type :=
| Vehicle_addTransportable (v : VehPtr) (t : MSTransportable)
| InsertionControl_add (v : VehPtr)
| Edge_removeWaiting (e : MSEdge) (v : VehPtr)
| VehicleControl_unregisterOneWaiting (isPerson : bool)
| PersonControl_addWaiting (e : MSEdge) (t : MSTransportable)
| Edge_addPerson (e : MSEdge) (t : MSTransportable)
| ContainerControl_addWaiting (e : MSEdge) (t : MSTransportable)
| Edge_addContainer (e : MSEdge) (t : MSTransportable)
| Taxi_addReservation (t : MSTransportable)
    (reservationTime pickupTime : SUMOTime)
    (from : MSEdge) (fromPos : float) (to : option MSEdge) (toPos : float).

Definition is_reservation (c : Call) : bool :=
  match c with
  | Taxi_addReservation _ _ _ _ _ _ _ => true
  | _ => false
  end.

Record ProcessError : Type := mkProcessError { what : string }.

(** How a call of [proceed] ends: it returns, it throws, or it has no
    defined behaviour. The first two carry the stage as the call leaves it
    and the collaborator calls made so far. *)
Inductive Outcome : Type :=
| Returns (s : MSStageDriving) (calls : list Call)
| Throws (e : ProcessError) (s : MSStageDriving) (calls : list Call)
| Undefined.

(** [getLines().size() == 1 && *getLines().begin() == "taxi"]. *)
Definition lines_are_taxi (X : gset string) : bool :=
  (Z.of_nat (size X) =? 1)
  && match set_begin X with
     | Some l => String.eqb l "taxi"
     | None => false
     end.

(** [MSStageDriving::proceed]. *)
Definition proceed (net : MSNet) (transportable : MSTransportable)
    (now : SUMOTime) (previous : MSStage) (s : MSStageDriving) : Outcome :=
  let start :=
    if MSStageType_eqb (prev_getStageType previous) TRIP
    then prev_getOriginStop previous
    else prev_getDestinationStop previous in
  let s := set_myWaitingSince now s in
  let isPerson := t_isPerson transportable in
  if DepartDefinition_eqb (t_departProcedure transportable) DEPART_TRIGGERED
     && (t_getNumRemainingStages transportable
         =? t_getNumStages transportable - 1)
  then
    (* we are the first real stage (stage 0 is WAITING_FOR_DEPART) *)
    match set_begin (myLines s) with
    | None => Undefined
    | Some vehID =>
        match getVehicle net vehID with
        | None =>
            Throws
              (mkProcessError
                 ("Vehicle '" +:+ vehID
                  +:+ "' not found for triggered departure of "
                  +:+ (if isPerson then "person" else "container")
                  +:+ " '" +:+ t_getID transportable +:+ "'."))
              s []
        | Some startVeh =>
            let s := setVehicle (vehicles net) startVeh s in
            Returns s [Vehicle_addTransportable startVeh transportable]
        end
    end
  else
    let '(waitingEdge, stopWaitPos, waitingPos) :=
      match start with
      | Some st =>
          (* the arrival stop may have an access point *)
          (Some (stop_getLaneEdge st),
           stop_getWaitPosition st transportable,
           stop_getWaitingPositionOnLane st transportable)
      | None =>
          (prev_getEdge previous, Position_INVALID,
           prev_getEdgePos previous now)
      end in
    let s := set_waiting_location waitingEdge stopWaitPos waitingPos s in
    match waitingEdge with
    | None => Undefined
    | Some edge =>
        let availableVehicle :=
          getWaitingVehicle net edge transportable waitingPos in
        let triggered :=
          match availableVehicle with
          | Some av =>
              (isPerson
               && DepartDefinition_eqb
                    (getParameter_departProcedure (vehicles net av))
                    DEPART_TRIGGERED)
              || (negb isPerson
                  && DepartDefinition_eqb
                       (getParameter_departProcedure (vehicles net av))
                       DEPART_CONTAINER_TRIGGERED)
          | None => false
          end in
        let enterWaiting :=
          if isPerson then
            Returns s
              ([PersonControl_addWaiting edge transportable;
                Edge_addPerson edge transportable]
               ++ (if lines_are_taxi (myLines s)
                   then [Taxi_addReservation transportable now now edge
                           waitingPos (getDestination s) (myArrivalPos s)]
                   else []))
          else
            Returns s
              [ContainerControl_addWaiting edge transportable;
               Edge_addContainer edge transportable] in
        match availableVehicle with
        | Some av =>
            if triggered && negb (hasDeparted (vehicles net av)) then
              let s := setVehicle (vehicles net) av s in
              Returns s
                [Vehicle_addTransportable av transportable;
                 InsertionControl_add av;
                 Edge_removeWaiting edge av;
                 VehicleControl_unregisterOneWaiting true]
            else enterWaiting
        | None => enterWaiting
        end
    end.

(** ** Reporting *)

(** A value handed to [OutputDevice::writeAttr]. [time2string] and
    [toString] are defined outside the translated file, so the strings they
    produce are kept as the values they are applied to. *)
Inductive AttrValue : Type :=
| AString (text : string)            (* a string literal *)
| ATime (t : SUMOTime)               (* time2string(t) *)
| AToString (d : float)              (* toString(d) *)
| ADouble (d : float).               (* a double, written by the device *)

(** One element written to the output device: [openTag], the [writeAttr]
    calls in order, [closeTag]. *)
Record XMLElement : Type := mkElement {
  tag : string;
  attrs : list (string * AttrValue)
}.

Fixpoint attr (name : string) (l : list (string * AttrValue))
  : option AttrValue :=
  match l with
  | [] => None
  | (n, v) :: rest => if String.eqb n name then Some v else attr name rest
  end.

(** The arguments of [MSDevice_Tripinfo::addRideTransportData]. *)
Record RideTransportData : Type := mkRideTransportData {
  rt_isPerson : bool;
  rt_distance : float;
  rt_duration : SUMOTime;
  rt_vClass : SUMOVehicleClass;
  rt_line : string;
  rt_waitingTime : SUMOTime
}.

(** [MSStageDriving::tripInfoOutput]; [now] is
    [MSNet::getInstance()->getCurrentTimeStep()]. The differences are
    written as integers: on the stages of a run they are [SUMOTime] values
    ([lifecycle_differences_representable] below), so the 64-bit
    subtractions of the source give the same numbers. *)
Definition tripInfoOutput (now : SUMOTime) (transportable : MSTransportable)
    (s : MSStageDriving) : RideTransportData * XMLElement :=
  let departed := if 0 <=? myDeparted s then myDeparted s else now in
  let waitingTime :=
    if 0 <=? myWaitingSince s then departed - myWaitingSince s else -1 in
  let duration := myArrived s - myDeparted s in
  (mkRideTransportData (t_isPerson transportable) (myVehicleDistance s)
     duration (myVehicleVClass s) (myVehicleLine s) waitingTime,
   mkElement (if t_isPerson transportable then "ride" else "transport")
     [("waitingTime",
       if 0 <=? waitingTime then ATime waitingTime else AString "-1");
      ("vehicle", AString (myVehicleID s));
      ("depart",
       if 0 <=? myDeparted s then ATime (myDeparted s) else AString "-1");
      ("arrival",
       if 0 <=? myArrived s then ATime (myArrived s) else AString "-1");
      ("arrivalPos", AToString (myArrivalPos s));
      ("duration",
       if 0 <=? myArrived s then ATime duration
       else if 0 <=? myDeparted s then ATime (now - myDeparted s)
            else AString "-1");
      ("routeLength", ADouble (myVehicleDistance s))]).

(** ** What the spec says the statistics record holds

    The spec's words for the waiting time of the record: the time between
    [waitingSince] and the effective departure time, or [-1] if
    [waitingSince] was never set. The effective departure time is the
    departure timestamp if there is one, else the current time. *)
Definition effectiveDeparture (now : SUMOTime) (s : MSStageDriving) : SUMOTime :=
  if 0 <=? myDeparted s then myDeparted s else now.

Definition spec_waitingTime (now : SUMOTime) (s : MSStageDriving) : AttrValue :=
  if 0 <=? myWaitingSince s
  then ATime (effectiveDeparture now s - myWaitingSince s)
  else AString "-1".

(** ** Position queries *)

(** Modelled from the spec: [MIN2] is declared in utils/common/StdDefs.h,
    which is not among the sources. The spec has the position "clamped to
    the current edge's length"; [MIN2] is the smaller of its two arguments,
    [a < b ? a : b]. *)
Definition MIN2 (a b : float) : float := if (a <? b)%float then a else b.

(** [MSStageDriving::getEdgePos]. [None] when the waiting position has not
    been assigned yet, or when the bound vehicle has neither lane nor edge
    and [getEdge()] is null. *)
Definition getEdgePos (veh : VehicleStore) (now : SUMOTime) (s : MSStageDriving)
  : option float :=
  if isWaiting4Vehicle s then myWaitingPos s
  else
    (* vehicle may already have passed the lane *)
    match myVehicle s, getEdge veh s with
    | Some v, Some e =>
        Some (MIN2 (getPositionOnLane (veh v)) (edge_getLength e))
    | _, _ => None
    end.

(** [Position::operator!=]: some coordinate differs. *)
Definition Position_neq (a b : Position) : bool :=
  negb (px a =? px b)%float
  || negb (py a =? py b)%float
  || negb (pz a =? pz b)%float.

(** What [getPosition] reads besides the stage: the left-hand flag of the
    network, the roadside offset and edge-position helper of [MSStage], and
    the spatial position of a vehicle. All are declared outside the
    translated file. *)
Record Surroundings : Type := mkSurroundings {
  lefthand : bool;                        (* MSNet::getInstance()->lefthand() *)
  ROADSIDE_OFFSET : float;
  getEdgePosition : option MSEdge -> float -> float -> Position;
  veh_getPosition : VehPtr -> Position
}.

(** [MSStageDriving::getPosition]. [None] when the edge position would be
    computed from a waiting position that has not been assigned. *)
Definition getPosition (env : Surroundings) (now : SUMOTime)
    (s : MSStageDriving) : option Position :=
  if isWaiting4Vehicle s then
    if Position_neq (myStopWaitPos s) Position_INVALID
    then Some (myStopWaitPos s)
    else
      match myWaitingPos s with
      | Some pos =>
          Some (getEdgePosition env (myWaitingEdge s) pos
                  (ROADSIDE_OFFSET env * (if lefthand env then -1 else 1))%float)
      | None => None
      end
  else
    match myVehicle s with
    | Some v => Some (veh_getPosition env v)
    | None => None
    end.

(** ** The stage summary *)

(** [MSStageDriving::getStageSummary]; [time2string] is declared outside
    the translated file and is a parameter. [None] when there is no
    destination stop and the destination edge is null. *)
Definition getStageSummary (time2string : SUMOTime -> string)
    (isPerson : bool) (s : MSStageDriving) : option string :=
  let dest :=
    match myDestinationStop s with
    | None =>
        match getDestination s with
        | Some e => Some (" edge '" +:+ edge_getID e +:+ "'")
        | None => None
        end
    | Some stop =>
        Some (" stop '" +:+ stop_getID stop +:+ "'"
              +:+ (if negb (String.eqb (stop_getMyName stop) EmptyString)
                   then " (" +:+ stop_getMyName stop +:+ ")"
                   else EmptyString))
    end in
  let intended :=
    if negb (String.eqb (myIntendedVehicleID s) EmptyString)
    then " (vehicle " +:+ myIntendedVehicleID s +:+ " at time "
         +:+ time2string (myIntendedDepart s) +:+ ")"
    else EmptyString in
  let modeName := if isPerson then "driving" else "transported" in
  match dest with
  | None => None
  | Some dest =>
      Some (if isWaiting4Vehicle s
            then "waiting for " +:+ joinToString (myLines s) "," +:+ intended
                 +:+ " then " +:+ modeName +:+ " to " +:+ dest
            else modeName +:+ " to " +:+ dest)
  end.

(** ** The route fragment *)

(** Attribute keys of the route fragment: the [SUMO_ATTR_*] constants the
    code passes, and the one literal name. *)
Inductive RouteAttr : Type :=
| SUMO_ATTR_FROM
| SUMO_ATTR_TO
| SUMO_ATTR_BUS_STOP
| SUMO_ATTR_LINES
| SUMO_ATTR_INTENDED
| SUMO_ATTR_DEPART
| ATTR_routeLength.

Definition RouteAttr_eqb (a b : RouteAttr) : bool :=
  match a, b with
  | SUMO_ATTR_FROM, SUMO_ATTR_FROM
  | SUMO_ATTR_TO, SUMO_ATTR_TO
  | SUMO_ATTR_BUS_STOP, SUMO_ATTR_BUS_STOP
  | SUMO_ATTR_LINES, SUMO_ATTR_LINES
  | SUMO_ATTR_INTENDED, SUMO_ATTR_INTENDED
  | SUMO_ATTR_DEPART, SUMO_ATTR_DEPART
  | ATTR_routeLength, ATTR_routeLength => true
  | _, _ => false
  end.

(** A value handed to [writeAttr] by [routeOutput]. *)
Inductive RouteValue : Type :=
| RString (text : string)
| RLines (lines : gset string)       (* the set of lines, as it is *)
| RTime (t : SUMOTime)               (* time2string(t) *)
| RDouble (d : float).

(** The element [routeOutput] writes. The comment handed to [closeTag] is
    empty ([None]) or wraps the escaped name of the destination stop
    ([Some name]). *)
Record RouteElement : Type := mkRouteElement {
  route_tag : string;
  route_attrs : list (RouteAttr * RouteValue);
  route_comment : option string
}.

Fixpoint route_attr (key : RouteAttr) (l : list (RouteAttr * RouteValue))
  : option RouteValue :=
  match l with
  | [] => None
  | (k, v) :: rest => if RouteAttr_eqb k key then Some v else route_attr key rest
  end.

(** [MSStageDriving::routeOutput]. [None] when the destination edge is
    null. *)
Definition routeOutput (isPerson : bool) (withRouteLength : bool)
    (s : MSStageDriving) : option RouteElement :=
  match getDestination s with
  | None => None
  | Some destination =>
      let from :=
        match getFromEdge s with
        | Some e => [(SUMO_ATTR_FROM, RString (edge_getID e))]
        | None => []
        end in
      let to := [(SUMO_ATTR_TO, RString (edge_getID destination))] in
      let busStop :=
        match myDestinationStop s with
        | Some stop => [(SUMO_ATTR_BUS_STOP, RString (stop_getID stop))]
        | None => []
        end in
      let comment :=
        match myDestinationStop s with
        | Some stop =>
            if negb (String.eqb (stop_getMyName stop) EmptyString)
            then Some (stop_getMyName stop)
            else None
        | None => None
        end in
      let lines := [(SUMO_ATTR_LINES, RLines (myLines s))] in
      let intended :=
        if negb (String.eqb (myIntendedVehicleID s) EmptyString)
        then [(SUMO_ATTR_INTENDED, RString (myIntendedVehicleID s))]
        else [] in
      let depart :=
        if 0 <=? myIntendedDepart s
        then [(SUMO_ATTR_DEPART, RTime (myIntendedDepart s))]
        else [] in
      let routeLength :=
        if withRouteLength
        then [(ATTR_routeLength, RDouble (myVehicleDistance s))]
        else [] in
      Some (mkRouteElement (if isPerson then "ride" else "transport")
              (from ++ to ++ busStop ++ lines ++ intended ++ depart
               ++ routeLength)
              comment)
  end.

(** The attributes of a route fragment other than its origin edge. *)
Definition without_from (el : RouteElement) : RouteElement :=
  mkRouteElement (route_tag el)
    (List.filter (fun kv => negb (RouteAttr_eqb (fst kv) SUMO_ATTR_FROM))
       (route_attrs el))
    (route_comment el).

(** ** Abort *)

(** The calls [abort] makes into its collaborators. *)
Inductive AbortCall : Type :=
| Vehicle_removeTransportable (v : VehPtr) (t : MSTransportable)
| PersonControl_abortWaitingForVehicle (t : MSTransportable)
| ContainerControl_abortWaitingForVehicle (t : MSTransportable).

(** [MSStageDriving::abort]. It assigns no member of the stage. *)
Definition abort (t : MSTransportable) (s : MSStageDriving) : list AbortCall :=
  match myVehicle s with
  | Some v =>
      (* jumping out of a moving vehicle! *)
      [Vehicle_removeTransportable v t]
  | None =>
      if t_isPerson t
      then [PersonControl_abortWaitingForVehicle t]
      else [ContainerControl_abortWaitingForVehicle t]
  end.

(** The condition of [proceed]'s triggered-start case. *)
Definition isTriggeredFirstStage (transportable : MSTransportable) : bool :=
  DepartDefinition_eqb (t_departProcedure transportable) DEPART_TRIGGERED
  && (t_getNumRemainingStages transportable
      =? t_getNumStages transportable - 1).

(** The stop [proceed] starts from. *)
Definition originStop (previous : MSStage) : option MSStoppingPlace :=
  if MSStageType_eqb (prev_getStageType previous) TRIP
  then prev_getOriginStop previous
  else prev_getDestinationStop previous.

(** Whether [proceed] boards the vehicle [av] found waiting on the edge:
    its departure is triggered by this kind of transportable and it has not
    departed. *)
Definition boardsAtOnce (net : MSNet) (transportable : MSTransportable)
    (av : VehPtr) : bool :=
  ((t_isPerson transportable
    && DepartDefinition_eqb
         (getParameter_departProcedure (vehicles net av)) DEPART_TRIGGERED)
   || (negb (t_isPerson transportable)
       && DepartDefinition_eqb
            (getParameter_departProcedure (vehicles net av))
            DEPART_CONTAINER_TRIGGERED))
  && negb (hasDeparted (vehicles net av)).

(** The waiting location [proceed] computes: edge, exact stop position and
    position on the lane. *)
Definition waitingLocation (transportable : MSTransportable) (now : SUMOTime)
    (previous : MSStage) : option MSEdge * Position * float :=
  match originStop previous with
  | Some st =>
      (Some (stop_getLaneEdge st),
       stop_getWaitPosition st transportable,
       stop_getWaitingPositionOnLane st transportable)
  | None =>
      (prev_getEdge previous, Position_INVALID, prev_getEdgePos previous now)
  end.

(** The calls of [proceed]'s two branches after the waiting location is
    known: boarding at once, and registering as waiting. *)
Definition boardingCalls (transportable : MSTransportable) (edge : MSEdge)
    (av : VehPtr) : list Call :=
  [Vehicle_addTransportable av transportable;
   InsertionControl_add av;
   Edge_removeWaiting edge av;
   VehicleControl_unregisterOneWaiting true].

Definition waitingCalls (transportable : MSTransportable) (now : SUMOTime)
    (edge : MSEdge) (pos : float) (s : MSStageDriving) : list Call :=
  if t_isPerson transportable then
    [PersonControl_addWaiting edge transportable;
     Edge_addPerson edge transportable]
    ++ (if lines_are_taxi (myLines s)
        then [Taxi_addReservation transportable now now edge pos
                (myDestination s) (myArrivalPos s)]
        else [])
  else
    [ContainerControl_addWaiting edge transportable;
     Edge_addContainer edge transportable].

(** The stage and the calls a defined outcome of [proceed] carries. *)
Definition stage_of (o : Outcome) : option MSStageDriving :=
  match o with
  | Returns s _ => Some s
  | Throws _ s _ => Some s
  | Undefined => None
  end.

Definition calls_of (o : Outcome) : list Call :=
  match o with
  | Returns _ calls => calls
  | Throws _ _ calls => calls
  | Undefined => []
  end.

(** ** The life of a stage *)

Definition set_myDeparted (x : SUMOTime) (s : MSStageDriving) : MSStageDriving :=
  mkStage (myDestination s) (myDestinationStop s) (myArrivalPos s) x
    (myArrived s) (myType s) (myLines s) (myVehicle s) (myVehicleID s)
    (myVehicleLine s) (myVehicleVClass s) (myVehicleDistance s)
    (myWaitingSince s) (myWaitingEdge s) (myWaitingPos s) (myStopWaitPos s)
    (myIntendedVehicleID s) (myIntendedDepart s).

(** Modelled from the spec: [MSStage::setDeparted] (MSStage.cpp is not
    among the sources) resolves the inherited departure timestamp when the
    transportable boards: it records the time, once. *)
Definition MSStage_setDeparted (now : SUMOTime) (s : MSStageDriving)
  : MSStageDriving :=
  if myDeparted s <? 0 then set_myDeparted now s else s.

(** The phases of a stage: constructed by the planner, activated by
    [proceed], terminated by [setArrived]. *)
Inductive Phase : Type :=
| Planned
| Active
| Terminated.

(** [lifecycle phase clock s]: the calls of a run can have produced the
    stage [s], in phase [phase], with the simulation clock at [clock]. A
    stage is constructed (or cloned); [proceed] activates it once, at the
    current time; while active it may be bound by [setVehicle] and have its
    departure recorded; [setArrived] terminates it at the current time,
    after which it is not changed. The clock does not run backwards. *)
Inductive lifecycle : Phase -> SUMOTime -> MSStageDriving -> Prop :=
| life_constructed (clock : SUMOTime) (destination : option MSEdge)
    (toStop : option MSStoppingPlace) (arrivalPos : float)
    (lines : list string) (intendedVeh : string) (intendedDepart : SUMOTime) :
    simulationTime clock ->
    lifecycle Planned clock
      (MSStageDriving_ctor destination toStop arrivalPos lines intendedVeh
         intendedDepart)
| life_proceed (clock now : SUMOTime) (net : MSNet)
    (transportable : MSTransportable) (previous : MSStage)
    (s s' : MSStageDriving) :
    lifecycle Planned clock s ->
    clock <= now -> simulationTime now ->
    stage_of (proceed net transportable now previous s) = Some s' ->
    lifecycle Active now s'
| life_setVehicle (clock : SUMOTime) (veh : VehicleStore) (v : VehPtr)
    (s : MSStageDriving) :
    lifecycle Active clock s ->
    lifecycle Active clock (setVehicle veh v s)
| life_setDeparted (clock now : SUMOTime) (s : MSStageDriving) :
    lifecycle Active clock s ->
    clock <= now -> simulationTime now ->
    lifecycle Active now (MSStage_setDeparted now s)
| life_setArrived (clock now : SUMOTime) (veh : VehicleStore)
    (s : MSStageDriving) :
    lifecycle Active clock s ->
    clock <= now -> simulationTime now ->
    lifecycle Terminated now (fst (setArrived veh now s)).

(** What holds of the timestamps of every stage of a run: a planned stage
    has none; an activated stage has a [waitingSince] that is a time of the
    run, not after the clock; a departure time, once recorded, is not before
    [waitingSince] and not after the clock; an arrival time, once recorded,
    is a time of the run not after the clock. *)
Definition timestamps_in_order (phase : Phase) (clock : SUMOTime)
    (s : MSStageDriving) : Prop :=
  simulationTime clock
  /\ match phase with
     | Planned =>
         myWaitingSince s = -1 /\ myDeparted s = -1 /\ myArrived s = -1
     | _ =>
         0 <= myWaitingSince s <= clock
         /\ (myDeparted s = -1
             \/ myWaitingSince s <= myDeparted s <= clock)
         /\ (myArrived s = -1 \/ 0 <= myArrived s <= clock)
     end.

(** ** A small network used by the examples *)

Module Scenario.

Definition edgeA : MSEdge := mkEdge "E1" 100%float.
Definition edgeB : MSEdge := mkEdge "E2" 250%float.

Definition stopA : MSStoppingPlace :=
  mkStop "stopA" "Main Street" edgeA
    (fun _ => mkPosition 10%float 2%float 0%float) (fun _ => 40%float).

Definition stopB : MSStoppingPlace :=
  mkStop "stopB" EmptyString edgeB
    (fun _ => mkPosition 300%float 2%float 0%float) (fun _ => 120%float).

(** A route whose distance query is the plain difference of positions. *)
Definition straight : MSRoute :=
  mkRoute [edgeA; edgeB] (fun fromPos toPos _ _ => (toPos - fromPos)%float).

(** A bus of line "bus1", [pos] metres down its route. *)
Definition bus (pos : float) (stopped : bool) : SUMOVehicle :=
  {| getID := "veh0";
     getParameter_line := "bus1";
     getParameter_departProcedure := DEPART_GIVEN;
     getVClass := SVC_BUS;
     getRoute := straight;
     getDepartPos := 5%float;
     getPositionOnLane := pos;
     getCurrentRouteEdge := 1%nat;
     getLaneEdge := Some edgeB;
     getVehEdge := Some edgeB;
     getSpeed_veh := (if stopped then 0 else 13)%float;
     isStopped := stopped;
     hasDeparted := true;
     stopsAtEdge := fun e =>
       match e with
       | Some e => String.eqb (edge_getID e) "E2"
       | None => false
       end;
     stopsAt := fun st => String.eqb (stop_getID st) "stopB" |}.

Definition atBoarding : VehicleStore := fun _ => bus 45%float true.
Definition atArrival : VehicleStore := fun _ => bus 115%float true.
Definition passingBy : VehicleStore := fun _ => bus 180%float false.

Definition person : MSTransportable :=
  mkTransportable "p0" true DEPART_GIVEN 2 3.
Definition container : MSTransportable :=
  mkTransportable "c0" false DEPART_GIVEN 2 3.
Definition triggeredPerson : MSTransportable :=
  mkTransportable "p1" true DEPART_TRIGGERED 2 3.

(** A previous stage that ended at [stopA]. *)
Definition walkedToStopA : MSStage :=
  mkPrevious WALKING None (Some stopA) (Some edgeA) (fun _ => 38%float).

(** A previous stage that ended on [edgeA], at no stop. *)
Definition walkedOnEdgeA : MSStage :=
  mkPrevious WALKING None None (Some edgeA) (fun _ => 38%float).

(** No vehicle is registered and none waits on any edge. *)
Definition emptyNet : MSNet :=
  mkNet (fun _ => None) atBoarding (fun _ _ _ => None).

Definition rideBus : MSStageDriving :=
  MSStageDriving_ctor (Some edgeB) (Some stopB) 120%float ["bus1"]
    EmptyString (-1).

Definition rideTaxi : MSStageDriving :=
  MSStageDriving_ctor (Some edgeB) None 120%float ["taxi"] EmptyString (-1).

Definition rideVeh0 : MSStageDriving :=
  MSStageDriving_ctor (Some edgeB) None 120%float ["veh0"] "veh0" 0.

(** A ride bound at time 160 after waiting since 100, baseline 40 m. *)
Definition boardedRide : MSStageDriving :=
  mkStage (Some edgeB) (Some stopB) 120%float 160 (-1) DRIVING {["bus1"]}
    (Some 0%nat) "veh0" "bus1" SVC_BUS 40%float 100 (Some edgeA)
    (Some 40%float) (mkPosition 10%float 2%float 0%float) EmptyString (-1).

End Scenario.

(** ** More vehicles and networks for the examples *)

Module Depot.

(** A vehicle with id "veh0" whose departure is triggered by a person and
    which has not departed. *)
Definition triggeredBus : SUMOVehicle :=
  {| getID := "veh0";
     getParameter_line := "bus1";
     getParameter_departProcedure := DEPART_TRIGGERED;
     getVClass := SVC_BUS;
     getRoute := Scenario.straight;
     getDepartPos := 5%float;
     getPositionOnLane := 5%float;
     getCurrentRouteEdge := 0%nat;
     getLaneEdge := None;
     getVehEdge := Some Scenario.edgeA;
     getSpeed_veh := 0%float;
     isStopped := false;
     hasDeparted := false;
     stopsAtEdge := fun _ => true;
     stopsAt := fun _ => true |}.

(** "veh0" is registered at address 7; nothing waits on any edge. *)
Definition registered : MSNet :=
  mkNet (fun id => if String.eqb id "veh0" then Some 7%nat else None)
    (fun _ => triggeredBus) (fun _ _ _ => None).

(** The triggered vehicle, at address 3, waits on every edge. *)
Definition pickup : MSNet :=
  mkNet (fun _ => None) (fun _ => triggeredBus) (fun _ _ _ => Some 3%nat).

(** A vehicle that has overrun its lane: position 260 on an edge of
    length 250. *)
Definition overrun : VehicleStore := fun _ => Scenario.bus 260%float false.

(** Right-hand traffic; the edge position is the lane offset and the
    lateral offset, at height 0. *)
Definition rightHand : Surroundings :=
  mkSurroundings false 3%float (fun _ pos off => mkPosition pos off 0%float)
    (fun _ => mkPosition 500%float 1%float 0%float).

(** A ride that was bound at 160, has departed at 160 and is under way. *)
Definition underWay : MSStageDriving := Scenario.boardedRide.

(** A finished ride: waiting since 100, departed 160, arrived 900. *)
Definition finished : MSStageDriving :=
  fst (setArrived Scenario.atArrival 900 Scenario.boardedRide).

(** A ride with no accepted line at all. *)
Definition noLines : MSStageDriving :=
  MSStageDriving_ctor (Some Scenario.edgeB) None 120%float [] EmptyString (-1).

End Depot.

(** Case analysis on the vehicle pointer of a stage, with the record taken
    apart so that the field assignments compute. *)
Ltac destruct_stage s v :=
  destruct s as [? ? ? ? ? ? ? [v | ] ? ? ? ? ? ? ? ? ? ?].

(** * Properties *)

(** ** The set model *)

#[local] Instance string_le_total : Total string_le.
Proof. intros a b. unfold string_le. apply String.leb_total. Qed.

Lemma set_iter_Permutation (X : gset string) : set_iter X ≡ₚ elements X.
Proof. apply merge_sort_Permutation. Qed.

Lemma set_iter_sorted (X : gset string) : Sorted string_le (set_iter X).
Proof. apply Sorted_merge_sort. exact string_le_total. Qed.

Lemma elem_of_set_iter (X : gset string) (x : string) :
  x ∈ set_iter X <-> x ∈ X.
Proof. rewrite set_iter_Permutation. apply elem_of_elements. Qed.

Lemma list_to_set_set_iter (X : gset string) : list_to_set (set_iter X) = X.
Proof.
  rewrite (list_to_set_perm_L _ _ (set_iter_Permutation X)).
  apply list_to_set_elements_L.
Qed.

Lemma set_count_pos (X : gset string) (x : string) :
  (0 <? set_count X x) = true <-> x ∈ X.
Proof.
  unfold set_count. destruct (decide (x ∈ X)) as [Hin | Hout].
  - split; [intros _; exact Hin | reflexivity].
  - split; [discriminate | intros Hin; contradiction].
Qed.

Lemma set_begin_singleton (x : string) : set_begin {[ x ]} = Some x.
Proof.
  unfold set_begin.
  assert (Hp : set_iter {[ x ]} ≡ₚ [x]).
  { rewrite set_iter_Permutation. now rewrite elements_singleton. }
  apply Permutation_singleton_r in Hp. now rewrite Hp.
Qed.

Lemma lines_are_taxi_iff (X : gset string) :
  lines_are_taxi X = true <-> X = {[ "taxi" ]}.
Proof.
  unfold lines_are_taxi. rewrite andb_true_iff, Z.eqb_eq. split.
  - intros [Hsize Hbegin].
    assert (Hone : size X = 1%nat) by lia.
    destruct (size_1_elem_of X Hone) as [x Hx].
    apply leibniz_equiv in Hx. subst X.
    rewrite set_begin_singleton in Hbegin.
    apply String.eqb_eq in Hbegin. now subst x.
  - intros ->. rewrite size_singleton, set_begin_singleton. split; reflexivity.
Qed.

(** ** The binding is never undone

    [myVehicle] is assigned in [setVehicle] only, and only a non-null
    address: a stage whose [myVehicle] is null has never been bound. *)

Lemma setVehicle_binds (veh : VehicleStore) (v : VehPtr) (s : MSStageDriving) :
  myVehicle (setVehicle veh v s) = Some v.
Proof. reflexivity. Qed.

Lemma setVehicle_baseline (veh : VehicleStore) (v : VehPtr) (s : MSStageDriving) :
  myVehicleDistance (setVehicle veh v s) = routeDistanceSoFar (veh v).
Proof. reflexivity. Qed.

Lemma setArrived_keeps_binding (veh : VehicleStore) (now : SUMOTime)
    (s : MSStageDriving) :
  myVehicle (fst (setArrived veh now s)) = myVehicle s.
Proof.
  destruct_stage s v;
    unfold setArrived, MSStage_setArrived; simpl; [ | reflexivity].
  destruct (isStopped (veh v)); reflexivity.
Qed.

Lemma isWaiting4Vehicle_iff (s : MSStageDriving) :
  isWaiting4Vehicle s = true <-> myVehicle s = None.
Proof.
  unfold isWaiting4Vehicle. destruct (myVehicle s); split; congruence.
Qed.

(** ** Termination: [setArrived] *)

(** The distance query both [setVehicle] and [setArrived] make is the
    route's [getDistanceBetween] from the vehicle's departure position to
    its position on the lane, from the first edge of the route to the
    vehicle's current route edge. *)
Lemma routeDistanceSoFar_query (vehicle : SUMOVehicle) :
  routeDistanceSoFar vehicle
  = getDistanceBetween (getRoute vehicle)
      (getDepartPos vehicle) (getPositionOnLane vehicle)
      0%nat (getCurrentRouteEdge vehicle).
Proof. reflexivity. Qed.

(** C1. [setArrived] on a bound stage stores the vehicle's route distance
    from its departure position to its current position, from the first
    route edge to the current one, minus the distance the stage held before
    (the baseline [setVehicle] stored at bind time, which is the same query
    on the vehicle as it was then), and overwrites the arrival position with
    the vehicle's position on its lane exactly when the vehicle is stopped;
    on a stage with no vehicle it stores [-1] and leaves the arrival
    position alone. The last part follows a stage from binding (vehicles as
    in [veh0]) to arrival (vehicles as in [veh]). *)
Theorem setArrived_finalizes_distance :
  forall (veh0 veh : VehicleStore) (now : SUMOTime) (s : MSStageDriving),
    match myVehicle s with
    | Some v =>
        myVehicleDistance (fst (setArrived veh now s))
        = (getDistanceBetween (getRoute (veh v))
             (getDepartPos (veh v)) (getPositionOnLane (veh v))
             0%nat (getCurrentRouteEdge (veh v))
           - myVehicleDistance s)%float
        /\ myArrivalPos (fst (setArrived veh now s))
           = (if isStopped (veh v) then getPositionOnLane (veh v)
              else myArrivalPos s)
    | None =>
        myVehicleDistance (fst (setArrived veh now s)) = (-1)%float
        /\ myArrivalPos (fst (setArrived veh now s)) = myArrivalPos s
    end
    /\ forall v : VehPtr,
        myVehicleDistance (setVehicle veh0 v s)
        = getDistanceBetween (getRoute (veh0 v))
            (getDepartPos (veh0 v)) (getPositionOnLane (veh0 v))
            0%nat (getCurrentRouteEdge (veh0 v))
        /\ myVehicleDistance (fst (setArrived veh now (setVehicle veh0 v s)))
           = (getDistanceBetween (getRoute (veh v))
                (getDepartPos (veh v)) (getPositionOnLane (veh v))
                0%nat (getCurrentRouteEdge (veh v))
              - getDistanceBetween (getRoute (veh0 v))
                  (getDepartPos (veh0 v)) (getPositionOnLane (veh0 v))
                  0%nat (getCurrentRouteEdge (veh0 v)))%float
        /\ myArrivalPos (fst (setArrived veh now (setVehicle veh0 v s)))
           = (if isStopped (veh v) then getPositionOnLane (veh v)
              else myArrivalPos s).
Proof.
  intros veh0 veh now s. split.
  - destruct_stage s v; unfold setArrived, MSStage_setArrived; simpl.
    + destruct (isStopped (veh v)); simpl; split; reflexivity.
    + split; reflexivity.
  - intros v. unfold setArrived, MSStage_setArrived. simpl.
    destruct (isStopped (veh v)); simpl; repeat split; reflexivity.
Qed.

(** With a route that measures along a line of edges of 100 m each (the
    distance is the end offset plus 100 m per edge passed, less the start
    offset), the four arguments of the query are told apart: bound at 45 m
    on the first edge after departing at 5 m, arrived at 15 m on the second
    edge. *)
Example setArrived_distance_by_edges :
  let byEdges : MSRoute :=
    mkRoute [Scenario.edgeA; Scenario.edgeB]
      (fun fromPos toPos fromEdge toEdge =>
         let start (i : nat) : float :=
           match i with
           | O => 0%float
           | S O => 100%float
           | _ => 200%float
           end in
         (toPos + start toEdge - (fromPos + start fromEdge))%float) in
  let vehicleAt (pos : float) (edge : nat) : VehicleStore :=
    fun _ =>
      mkVehicle "veh0" "bus1" DEPART_GIVEN SVC_BUS byEdges 5%float pos edge
        None None 0%float true true (fun _ => false) (fun _ => false) in
  let s := setVehicle (vehicleAt 45%float 0%nat) 0%nat Scenario.rideBus in
  let s' := fst (setArrived (vehicleAt 15%float 1%nat) 900 s) in
  myVehicleDistance s = 40%float
  /\ myVehicleDistance s' = 70%float
  /\ myArrivalPos s' = 15%float.
Proof. vm_compute. repeat split; reflexivity. Qed.

(** The scenario of the spec: bound at 45 m, the vehicle stops at 115 m,
    short of the planned arrival position 120 m. *)
Example setArrived_stopped_short :
  let s := setVehicle Scenario.atBoarding 0%nat Scenario.rideBus in
  let s' := fst (setArrived Scenario.atArrival 900 s) in
  myArrivalPos s = 120%float
  /\ myArrivalPos s' = 115%float
  /\ myVehicleDistance s = 40%float
  /\ myVehicleDistance s' = 70%float
  /\ myArrived s' = 900.
Proof. vm_compute. repeat split; reflexivity. Qed.

Example setArrived_not_stopped :
  let s := setVehicle Scenario.atBoarding 0%nat Scenario.rideBus in
  let s' := fst (setArrived Scenario.passingBy 900 s) in
  myArrivalPos s' = 120%float /\ myVehicleDistance s' = 135%float.
Proof. vm_compute. split; reflexivity. Qed.

Example setArrived_never_bound :
  myVehicleDistance (fst (setArrived Scenario.atArrival 900 Scenario.rideBus))
  = (-1)%float.
Proof. reflexivity. Qed.

(** C9. [setArrived] returns the empty string, whatever the stage, the
    vehicles and the time. *)
Theorem setArrived_returns_empty :
  forall (veh : VehicleStore) (now : SUMOTime) (s : MSStageDriving),
    snd (setArrived veh now s) = EmptyString.
Proof. intros veh now s. reflexivity. Qed.

(** ** The matching predicate *)

(** C2. [isWaitingFor] holds exactly when the vehicle's id is an accepted
    line, or its line label is, or "ANY" is an accepted line and the vehicle
    stops at the destination: at the destination stop when the stage has
    one, at the destination edge otherwise. *)
Theorem isWaitingFor_iff :
  forall (vehicle : SUMOVehicle) (s : MSStageDriving),
    isWaitingFor vehicle s = true
    <-> (getID vehicle ∈ myLines s
         \/ getParameter_line vehicle ∈ myLines s
         \/ ("ANY" ∈ myLines s
             /\ match myDestinationStop s with
                | Some stop => stopsAt vehicle stop = true
                | None => stopsAtEdge vehicle (myDestination s) = true
                end)).
Proof.
  intros vehicle s. unfold isWaitingFor.
  rewrite !orb_true_iff, andb_true_iff, !set_count_pos.
  destruct (myDestinationStop s); tauto.
Qed.

Example isWaitingFor_by_line :
  isWaitingFor (Scenario.bus 0%float false) Scenario.rideBus = true
  /\ isWaitingFor (Scenario.bus 0%float false) Scenario.rideVeh0 = true
  /\ isWaitingFor (Scenario.bus 0%float false) Scenario.rideTaxi = false.
Proof. vm_compute. repeat split; reflexivity. Qed.

(** ** Queries *)

Lemma SUMOTime_wrap_representable (z : Z) :
  SUMOTime_representable z -> SUMOTime_wrap z = z.
Proof.
  unfold SUMOTime_representable, SUMOTime_wrap. intros Hz.
  rewrite Z.mod_small by lia. lia.
Qed.

Lemma SUMOTime_wrap_range (z : Z) : SUMOTime_representable (SUMOTime_wrap z).
Proof.
  unfold SUMOTime_representable, SUMOTime_wrap.
  pose proof (Z.mod_pos_bound (z + 2 ^ 63) (2 ^ 64) ltac:(lia)). lia.
Qed.






(** For the times a simulation hands to the stage ([waitingSince] is [-1]
    or a time of the run, [now] is a time of the run) the waiting time is
    the exact difference: the subtraction of the source does not overflow
    there. *)
Lemma getWaitingTime_representable (now : SUMOTime) (s : MSStageDriving) :
  -1 <= myWaitingSince s ->
  myWaitingSince s <= now ->
  simulationTime now ->
  getWaitingTime now s
  = (if isWaiting4Vehicle s then now - myWaitingSince s else 0)
  /\ SUMOTime_representable (getWaitingTime now s).
Proof.
  intros Hsince Hle [Hnow Hmax]. unfold getWaitingTime.
  destruct (isWaiting4Vehicle s).
  - unfold SUMOTime_sub. split; [ | apply SUMOTime_wrap_range].
    apply SUMOTime_wrap_representable. unfold SUMOTime_representable. lia.
  - split; [reflexivity | unfold SUMOTime_representable; lia].
Qed.

(** C8. [getEdges] is the list of two elements, the origin edge (the
    waiting edge) then the destination edge, for a waiting and for a bound
    stage alike; nothing of the carrying vehicle is read, so no edge of its
    route can appear. *)
Theorem getEdges_origin_destination :
  forall s : MSStageDriving,
    getEdges s = [getFromEdge s; getDestination s]
    /\ getFromEdge s = myWaitingEdge s
    /\ getDestination s = myDestination s
    /\ length (getEdges s) = 2%nat
    /\ forall (veh : VehicleStore) (v : VehPtr),
        getEdges (setVehicle veh v s) = [myWaitingEdge s; myDestination s].
Proof. intros s. repeat split; reflexivity. Qed.

Example getEdges_bound_stage :
  getEdges (setVehicle Scenario.passingBy 0%nat
              (set_waiting_location (Some Scenario.edgeA) Position_INVALID
                 38%float Scenario.rideBus))
  = [Some Scenario.edgeA; Some Scenario.edgeB].
Proof. reflexivity. Qed.

(** ** Cloning *)

(** C10. A clone has the destination edge, destination stop, arrival
    position, accepted lines, intended vehicle id and intended departure
    time of the stage it is made from, whatever state that stage is in, and
    is itself in the initial state: no vehicle, distance [-1],
    [waitingSince] [-1], vehicle id "NULL". *)
Theorem clone_copies_plan_and_resets_state :
  forall s : MSStageDriving,
    (myDestination (clone s) = myDestination s
     /\ myDestinationStop (clone s) = myDestinationStop s
     /\ myArrivalPos (clone s) = myArrivalPos s
     /\ myLines (clone s) = myLines s
     /\ myIntendedVehicleID (clone s) = myIntendedVehicleID s
     /\ myIntendedDepart (clone s) = myIntendedDepart s)
    /\ (myVehicle (clone s) = None
        /\ myVehicleDistance (clone s) = (-1)%float
        /\ myWaitingSince (clone s) = -1
        /\ myVehicleID (clone s) = "NULL").
Proof.
  intros s. unfold clone, MSStageDriving_ctor. simpl.
  rewrite list_to_set_set_iter. repeat split; reflexivity.
Qed.

(** A clone of a bound stage that has arrived. *)
Example clone_of_arrived_stage :
  let s :=
    fst (setArrived Scenario.atArrival 900
           (setVehicle Scenario.atBoarding 0%nat
              (set_myWaitingSince 100 Scenario.rideBus))) in
  myVehicle s = Some 0%nat
  /\ myVehicleID s = "veh0"
  /\ myArrivalPos s = 115%float
  /\ myVehicle (clone s) = None
  /\ myVehicleID (clone s) = "NULL"
  /\ myArrivalPos (clone s) = 115%float
  /\ myWaitingSince (clone s) = -1.
Proof. vm_compute. repeat split; reflexivity. Qed.

(** ** Activation: [proceed] *)

Lemma set_myWaitingSince_id (now : SUMOTime) (s : MSStageDriving) :
  set_myWaitingSince now s = s <-> myWaitingSince s = now.
Proof.
  split.
  - intros H. rewrite <- H. reflexivity.
  - intros H. destruct s; simpl in H; subst. reflexivity.
Qed.

(** C3, as the code has it. In the triggered-departure case of the first
    real stage, when the vehicle named by the first accepted line is not
    registered, [proceed] throws a [ProcessError] whose text names the
    vehicle id and the kind and id of the transportable; no collaborator has
    been called and no vehicle is bound, and the stage is as before except
    that [waitingSince] has been set to [now]. *)
Theorem proceed_triggered_vehicle_missing :
  forall (net : MSNet) (transportable : MSTransportable) (now : SUMOTime)
         (previous : MSStage) (s : MSStageDriving) (vehID : string),
    t_departProcedure transportable = DEPART_TRIGGERED ->
    t_getNumRemainingStages transportable
    = t_getNumStages transportable - 1 ->
    set_begin (myLines s) = Some vehID ->
    getVehicle net vehID = None ->
    proceed net transportable now previous s
    = Throws
        (mkProcessError
           ("Vehicle '" +:+ vehID
            +:+ "' not found for triggered departure of "
            +:+ (if t_isPerson transportable then "person" else "container")
            +:+ " '" +:+ t_getID transportable +:+ "'."))
        (set_myWaitingSince now s) [].
Proof.
  intros net transportable now previous s vehID Hdep Hfirst Hbegin Hmissing.
  unfold proceed. rewrite Hdep, Hfirst, Z.eqb_refl. simpl.
  rewrite Hbegin, Hmissing. reflexivity.
Qed.

Lemma proceed_triggered_vehicle_missing_witness :
  proceed Scenario.emptyNet Scenario.triggeredPerson 100
    Scenario.walkedOnEdgeA Scenario.rideVeh0
  = Throws
      (mkProcessError
         "Vehicle 'veh0' not found for triggered departure of person 'p1'.")
      (set_myWaitingSince 100 Scenario.rideVeh0) [].
Proof.
  apply (proceed_triggered_vehicle_missing Scenario.emptyNet
           Scenario.triggeredPerson 100 Scenario.walkedOnEdgeA
           Scenario.rideVeh0 "veh0");
    vm_compute; reflexivity.
Defined.

(** C3, as stated, fails: a stage that has never been activated
    ([waitingSince = -1]) is left with [waitingSince = 100] by the failed
    call. *)
Lemma proceed_triggered_vehicle_missing_changes_stage :
  t_departProcedure Scenario.triggeredPerson = DEPART_TRIGGERED
  /\ t_getNumRemainingStages Scenario.triggeredPerson
     = t_getNumStages Scenario.triggeredPerson - 1
  /\ set_begin (myLines Scenario.rideVeh0) = Some "veh0"
  /\ getVehicle Scenario.emptyNet "veh0" = None
  /\ exists (e : ProcessError) (s' : MSStageDriving),
      proceed Scenario.emptyNet Scenario.triggeredPerson 100
        Scenario.walkedOnEdgeA Scenario.rideVeh0
      = Throws e s' []
      /\ myWaitingSince Scenario.rideVeh0 = -1
      /\ myWaitingSince s' = 100
      /\ s' <> Scenario.rideVeh0.
Proof.
  repeat split; try (vm_compute; reflexivity).
  eexists. exists (set_myWaitingSince 100 Scenario.rideVeh0).
  repeat split; try (vm_compute; reflexivity).
  intros Heq. apply (f_equal myWaitingSince) in Heq. discriminate Heq.
Qed.

(** Where a call of [proceed] that returns leaves the stage: bound by
    [setVehicle], or waiting at the location it has just computed. *)
Lemma proceed_Returns_inv (net : MSNet) (transportable : MSTransportable)
    (now : SUMOTime) (previous : MSStage) (s s' : MSStageDriving)
    (calls : list Call) :
  proceed net transportable now previous s = Returns s' calls ->
  (exists v : VehPtr,
      s' = setVehicle (vehicles net) v (set_myWaitingSince now s)
      \/ exists e sp p,
          s' = setVehicle (vehicles net) v
                 (set_waiting_location e sp p (set_myWaitingSince now s)))
  \/ exists (edge : MSEdge) (stopPos : Position) (pos : float),
      s' = set_waiting_location (Some edge) stopPos pos
             (set_myWaitingSince now s)
      /\ calls
         = if t_isPerson transportable then
             [PersonControl_addWaiting edge transportable;
              Edge_addPerson edge transportable]
             ++ (if lines_are_taxi (myLines s)
                 then [Taxi_addReservation transportable now now edge pos
                         (myDestination s) (myArrivalPos s)]
                 else [])
           else
             [ContainerControl_addWaiting edge transportable;
              Edge_addContainer edge transportable].
Proof.
  unfold proceed. simpl. intros H.
  repeat case_match; simplify_eq; simpl in *; try congruence;
    try (left; eexists; left; reflexivity);
    try (left; eexists; right; do 3 eexists; reflexivity);
    try (right; do 3 eexists; split; reflexivity).
Qed.

(** [proceed] does not undo a binding: a stage it leaves waiting was
    waiting before. *)
Lemma proceed_never_unbinds (net : MSNet) (transportable : MSTransportable)
    (now : SUMOTime) (previous : MSStage) (s s' : MSStageDriving)
    (calls : list Call) :
  proceed net transportable now previous s = Returns s' calls ->
  myVehicle s' = None ->
  myVehicle s = None.
Proof.
  intros Hret Hwaiting. apply proceed_Returns_inv in Hret.
  destruct Hret as [[v [-> | (e & sp & p & ->)]] | (edge & sp & pos & -> & _)];
    try discriminate Hwaiting.
  exact Hwaiting.
Qed.

(** C5, as the code has it. When [proceed] returns with the stage waiting
    and the accepted lines are exactly {"taxi"}: for a person the calls are
    the two waiting registrations followed by a reservation carrying [now]
    as reservation and pickup time, the waiting edge and position, and the
    stage's destination edge and arrival position; for a container they are
    the two waiting registrations only. *)
Theorem proceed_taxi_reservation :
  forall (net : MSNet) (transportable : MSTransportable) (now : SUMOTime)
         (previous : MSStage) (s s' : MSStageDriving) (calls : list Call),
    proceed net transportable now previous s = Returns s' calls ->
    myVehicle s' = None ->
    myLines s = {[ "taxi" ]} ->
    exists (edge : MSEdge) (pos : float),
      myWaitingEdge s' = Some edge
      /\ myWaitingPos s' = Some pos
      /\ myDestination s' = myDestination s
      /\ myArrivalPos s' = myArrivalPos s
      /\ calls
         = if t_isPerson transportable then
             [PersonControl_addWaiting edge transportable;
              Edge_addPerson edge transportable;
              Taxi_addReservation transportable now now edge pos
                (myDestination s) (myArrivalPos s)]
           else
             [ContainerControl_addWaiting edge transportable;
              Edge_addContainer edge transportable].
Proof.
  intros net transportable now previous s s' calls Hret Hwaiting Htaxi.
  apply proceed_Returns_inv in Hret.
  destruct Hret as [[v [-> | (e & sp & p & ->)]] | (edge & sp & pos & -> & ->)];
    try discriminate Hwaiting.
  exists edge, pos. repeat split.
  apply lines_are_taxi_iff in Htaxi. rewrite Htaxi. reflexivity.
Qed.

Lemma proceed_taxi_reservation_witness :
  exists (edge : MSEdge) (pos : float) (s' : MSStageDriving),
    proceed Scenario.emptyNet Scenario.person 100 Scenario.walkedOnEdgeA
      Scenario.rideTaxi
    = Returns s'
        [PersonControl_addWaiting edge Scenario.person;
         Edge_addPerson edge Scenario.person;
         Taxi_addReservation Scenario.person 100 100 edge pos
           (Some Scenario.edgeB) 120%float]
    /\ myWaitingEdge s' = Some edge
    /\ myWaitingPos s' = Some pos.
Proof.
  pose (r := proceed Scenario.emptyNet Scenario.person 100
               Scenario.walkedOnEdgeA Scenario.rideTaxi).
  assert (Hr : r = Returns
                     (set_waiting_location (Some Scenario.edgeA)
                        Position_INVALID 38%float
                        (set_myWaitingSince 100 Scenario.rideTaxi))
                     [PersonControl_addWaiting Scenario.edgeA Scenario.person;
                      Edge_addPerson Scenario.edgeA Scenario.person;
                      Taxi_addReservation Scenario.person 100 100
                        Scenario.edgeA 38%float (Some Scenario.edgeB)
                        120%float])
    by (vm_compute; reflexivity).
  destruct (proceed_taxi_reservation Scenario.emptyNet Scenario.person 100
              Scenario.walkedOnEdgeA Scenario.rideTaxi _ _ Hr)
    as (edge & pos & Hedge & Hpos & _ & _ & Hcalls).
  - reflexivity.
  - vm_compute. reflexivity.
  - exists edge, pos. eexists. split; [ | split; [exact Hedge | exact Hpos]].
    unfold r in Hr. rewrite Hr. simpl in Hcalls. rewrite Hcalls. reflexivity.
Defined.

(** C5, as stated, fails for a container: it ends waiting with accepted
    lines {"taxi"} and no reservation is among the calls. *)
Lemma proceed_container_taxi_no_reservation :
  exists (s' : MSStageDriving) (calls : list Call),
    proceed Scenario.emptyNet Scenario.container 100 Scenario.walkedOnEdgeA
      Scenario.rideTaxi
    = Returns s' calls
    /\ t_isPerson Scenario.container = false
    /\ myVehicle s' = None
    /\ myLines Scenario.rideTaxi = {[ "taxi" ]}
    /\ calls
       = [ContainerControl_addWaiting Scenario.edgeA Scenario.container;
          Edge_addContainer Scenario.edgeA Scenario.container]
    /\ existsb is_reservation calls = false.
Proof.
  do 2 eexists. split; [vm_compute; reflexivity | ].
  repeat split; vm_compute; reflexivity.
Qed.

(** ** The waiting description *)

Lemma append_nonempty (a b : string) : a <> EmptyString -> a +:+ b <> EmptyString.
Proof. destruct a; [congruence | discriminate]. Qed.

(** When it has a value, the waiting description is empty exactly for a
    bound stage. *)
Lemma getWaitingDescription_nonempty (s : MSStageDriving) (d : string) :
  getWaitingDescription s = Some d ->
  (d <> EmptyString <-> myVehicle s = None).
Proof.
  unfold getWaitingDescription, isWaiting4Vehicle.
  destruct (myVehicle s) as [v | ].
  - intros [= <-]. split; congruence.
  - destruct (myDestinationStop s) as [stop | ];
      [ | destruct (myWaitingEdge s) as [e | ]; [ | discriminate]];
      intros [= <-]; (split; [reflexivity | intros _; discriminate]).
Qed.

(** The stop a waiting description names is the destination stop of the
    stage, whenever the stage has one. *)
Lemma getWaitingDescription_destination_stop (s : MSStageDriving)
    (stop : MSStoppingPlace) :
  myVehicle s = None ->
  myDestinationStop s = Some stop ->
  getWaitingDescription s
  = Some ("waiting for " +:+ joinToString (myLines s) ","
          +:+ " at busStop '" +:+ stop_getID stop +:+ "'").
Proof.
  intros Hv Hs. unfold getWaitingDescription, isWaiting4Vehicle.
  rewrite Hv, Hs. reflexivity.
Qed.

(** C6, the code at the failing input. A person who walked to stop "stopA"
    on edge "E1" activates a ride on line "bus1" to stop "stopB"; no vehicle
    is there. The stage waits on "E1", at the waiting position of "stopA",
    and its waiting description names "stopB", the stop the ride goes to. *)
Theorem getWaitingDescription_at_origin_stop :
  exists (s' : MSStageDriving) (calls : list Call),
    proceed Scenario.emptyNet Scenario.person 100 Scenario.walkedToStopA
      Scenario.rideBus
    = Returns s' calls
    /\ myVehicle s' = None
    /\ myWaitingEdge s' = Some (stop_getLaneEdge Scenario.stopA)
    /\ myWaitingPos s'
       = Some (stop_getWaitingPositionOnLane Scenario.stopA Scenario.person)
    /\ myDestinationStop s' = Some Scenario.stopB
    /\ getWaitingDescription s' = Some "waiting for bus1 at busStop 'stopB'".
Proof.
  do 2 eexists. split; [vm_compute; reflexivity | ].
  repeat split; vm_compute; reflexivity.
Qed.

(** ** The statistics record *)

Lemma tripInfoOutput_waitingTime_attr (now : SUMOTime)
    (transportable : MSTransportable) (s : MSStageDriving) :
  attr "waitingTime" (attrs (snd (tripInfoOutput now transportable s)))
  = Some (if (0 <=? myWaitingSince s)
             && (0 <=? effectiveDeparture now s - myWaitingSince s)
          then ATime (effectiveDeparture now s - myWaitingSince s)
          else AString "-1").
Proof.
  unfold tripInfoOutput, effectiveDeparture. simpl.
  destruct (0 <=? myWaitingSince s); reflexivity.
Qed.

Lemma tripInfoOutput_duration_attr (now : SUMOTime)
    (transportable : MSTransportable) (s : MSStageDriving) :
  attr "duration" (attrs (snd (tripInfoOutput now transportable s)))
  = Some (if 0 <=? myArrived s then ATime (myArrived s - myDeparted s)
          else if 0 <=? myDeparted s then ATime (now - myDeparted s)
               else AString "-1").
Proof. reflexivity. Qed.

(** Where the departure time is not before [waitingSince], the record's
    waiting time is the one the spec describes. *)
Lemma tripInfoOutput_waitingTime_ordered (now : SUMOTime)
    (transportable : MSTransportable) (s : MSStageDriving) :
  myWaitingSince s <= effectiveDeparture now s ->
  attr "waitingTime" (attrs (snd (tripInfoOutput now transportable s)))
  = Some (spec_waitingTime now s).
Proof.
  intros Hle. rewrite tripInfoOutput_waitingTime_attr.
  unfold spec_waitingTime.
  destruct (0 <=? myWaitingSince s); simpl; [ | reflexivity].
  assert (H : (0 <=? effectiveDeparture now s - myWaitingSince s) = true)
    by (apply Z.leb_le; lia).
  now rewrite H.
Qed.

(** What the record holds for any contents of the stage's fields: the
    waiting time is the effective departure time minus [waitingSince] when
    [waitingSince] is set and that difference is not negative, and "-1"
    otherwise; the duration is arrival minus departure if arrived, else
    [now] minus departure if departed, else "-1". *)
Lemma tripInfoOutput_waitingTime_duration :
  forall (now : SUMOTime) (transportable : MSTransportable)
         (s : MSStageDriving),
    attr "waitingTime" (attrs (snd (tripInfoOutput now transportable s)))
    = Some (if (0 <=? myWaitingSince s)
               && (0 <=? effectiveDeparture now s - myWaitingSince s)
            then ATime (effectiveDeparture now s - myWaitingSince s)
            else AString "-1")
    /\ attr "duration" (attrs (snd (tripInfoOutput now transportable s)))
       = Some (if 0 <=? myArrived s then ATime (myArrived s - myDeparted s)
               else if 0 <=? myDeparted s then ATime (now - myDeparted s)
                    else AString "-1").
Proof.
  intros now transportable s. split.
  - apply tripInfoOutput_waitingTime_attr.
  - apply tripInfoOutput_duration_attr.
Qed.

Example tripInfoOutput_of_finished_ride :
  let s := fst (setArrived Scenario.atArrival 900 Scenario.boardedRide) in
  snd (tripInfoOutput 900 Scenario.person s)
  = mkElement "ride"
      [("waitingTime", ATime 60);
       ("vehicle", AString "veh0");
       ("depart", ATime 160);
       ("arrival", ATime 900);
       ("arrivalPos", AToString 115%float);
       ("duration", ATime 740);
       ("routeLength", ADouble 70%float)].
Proof. vm_compute. reflexivity. Qed.

(** * Further properties of the stage *)

(** ** First element and emptiness of a set of lines *)

Lemma set_iter_nil_iff (X : gset string) : set_iter X = [] <-> X = ∅.
Proof.
  split.
  - intros Hnil. apply leibniz_equiv, elements_empty_inv.
    apply Permutation_nil_r.
    rewrite <- (set_iter_Permutation X), Hnil. reflexivity.
  - intros ->. apply Permutation_nil_r.
    rewrite set_iter_Permutation, elements_empty. reflexivity.
Qed.

Lemma set_begin_None_iff (X : gset string) : set_begin X = None <-> X = ∅.
Proof.
  rewrite <- set_iter_nil_iff. unfold set_begin.
  destruct (set_iter X); simpl; split; congruence.
Qed.

Lemma set_begin_elem_of (X : gset string) (x : string) :
  set_begin X = Some x -> x ∈ X.
Proof.
  unfold set_begin. intros Hhead. apply elem_of_set_iter.
  destruct (set_iter X) as [ | y l]; simpl in Hhead; [discriminate | ].
  injection Hhead as ->. apply list_elem_of_here.
Qed.

(** ** The branches of [proceed] *)

(** [proceed], branch by branch, in the vocabulary of the definitions
    above. *)
Lemma proceed_equation (net : MSNet) (transportable : MSTransportable)
    (now : SUMOTime) (previous : MSStage) (s : MSStageDriving) :
  proceed net transportable now previous s
  = if isTriggeredFirstStage transportable then
      match set_begin (myLines s) with
      | None => Undefined
      | Some vehID =>
          match getVehicle net vehID with
          | None =>
              Throws
                (mkProcessError
                   ("Vehicle '" +:+ vehID
                    +:+ "' not found for triggered departure of "
                    +:+ (if t_isPerson transportable
                         then "person" else "container")
                    +:+ " '" +:+ t_getID transportable +:+ "'."))
                (set_myWaitingSince now s) []
          | Some startVeh =>
              Returns
                (setVehicle (vehicles net) startVeh (set_myWaitingSince now s))
                [Vehicle_addTransportable startVeh transportable]
          end
      end
    else
      let '(e, stopPos, pos) := waitingLocation transportable now previous in
      let s1 := set_waiting_location e stopPos pos (set_myWaitingSince now s) in
      match e with
      | None => Undefined
      | Some edge =>
          match getWaitingVehicle net edge transportable pos with
          | Some av =>
              if boardsAtOnce net transportable av
              then Returns (setVehicle (vehicles net) av s1)
                     (boardingCalls transportable edge av)
              else Returns s1 (waitingCalls transportable now edge pos s)
          | None => Returns s1 (waitingCalls transportable now edge pos s)
          end
      end.
Proof.
  unfold proceed, isTriggeredFirstStage, waitingLocation, originStop,
    boardsAtOnce, boardingCalls, waitingCalls.
  destruct (DepartDefinition_eqb _ _ && (_ =? _)); [reflexivity | ].
  destruct (if MSStageType_eqb _ _ then _ else _) as [st | ]; simpl.
  - destruct (getWaitingVehicle net _ _ _) as [av | ];
      destruct (t_isPerson transportable); simpl; try reflexivity;
      destruct (DepartDefinition_eqb _ _); simpl; try reflexivity;
      destruct (hasDeparted _); reflexivity.
  - destruct (prev_getEdge previous) as [edge | ]; [ | reflexivity].
    destruct (getWaitingVehicle net _ _ _) as [av | ];
      destruct (t_isPerson transportable); simpl; try reflexivity;
      destruct (DepartDefinition_eqb _ _); simpl; try reflexivity;
      destruct (hasDeparted _); reflexivity.
Qed.

(** Every outcome of [proceed] that carries a stage carries one of three:
    the stage with [waitingSince] stamped, that stage bound, or that stage
    with a waiting location, possibly bound. *)
Lemma stage_of_proceed (net : MSNet) (transportable : MSTransportable)
    (now : SUMOTime) (previous : MSStage) (s s' : MSStageDriving) :
  stage_of (proceed net transportable now previous s) = Some s' ->
  exists s1 : MSStageDriving,
    (s1 = set_myWaitingSince now s
     \/ exists e sp p,
         s1 = set_waiting_location e sp p (set_myWaitingSince now s))
    /\ (s' = s1 \/ exists v, s' = setVehicle (vehicles net) v s1).
Proof.
  rewrite proceed_equation.
  destruct (isTriggeredFirstStage transportable).
  - destruct (set_begin (myLines s)) as [vehID | ]; [ | discriminate].
    destruct (getVehicle net vehID) as [v | ]; simpl; intros [= <-];
      exists (set_myWaitingSince now s); eauto.
  - destruct (waitingLocation transportable now previous) as [[e sp] p].
    destruct e as [edge | ]; [ | discriminate].
    destruct (getWaitingVehicle net edge transportable p) as [av | ];
      [destruct (boardsAtOnce net transportable av) | ];
      simpl; intros [= <-];
      exists (set_waiting_location (Some edge) sp p (set_myWaitingSince now s));
      eauto 8.
Qed.

(** X1. Whenever [proceed] returns or throws, the stage it leaves has
    [waitingSince] equal to the time of the call, and its plan (destination
    edge and stop, arrival position, accepted lines, intended vehicle and
    departure) and its departure and arrival timestamps are those it had
    before. *)
Theorem proceed_stamps_and_keeps_plan :
  forall (net : MSNet) (transportable : MSTransportable) (now : SUMOTime)
         (previous : MSStage) (s s' : MSStageDriving),
    stage_of (proceed net transportable now previous s) = Some s' ->
    myWaitingSince s' = now
    /\ myDestination s' = myDestination s
    /\ myDestinationStop s' = myDestinationStop s
    /\ myArrivalPos s' = myArrivalPos s
    /\ myLines s' = myLines s
    /\ myIntendedVehicleID s' = myIntendedVehicleID s
    /\ myIntendedDepart s' = myIntendedDepart s
    /\ myDeparted s' = myDeparted s
    /\ myArrived s' = myArrived s.
Proof.
  intros net transportable now previous s s' Hstage.
  destruct (stage_of_proceed _ _ _ _ _ _ Hstage)
    as (s1 & [-> | (e & sp & p & ->)] & [-> | [v ->]]);
    repeat split; reflexivity.
Qed.

Lemma proceed_stamps_and_keeps_plan_witness :
  exists s' : MSStageDriving,
    stage_of (proceed Scenario.emptyNet Scenario.person 100
                Scenario.walkedToStopA Scenario.rideBus) = Some s'
    /\ myWaitingSince Scenario.rideBus = -1
    /\ myWaitingSince s' = 100
    /\ myLines s' = myLines Scenario.rideBus.
Proof.
  eexists. split; [vm_compute; reflexivity | ].
  split; [reflexivity | ].
  refine ((fun H => conj (proj1 H) (proj1 (proj2 (proj2 (proj2 (proj2 H))))))
            (proceed_stamps_and_keeps_plan Scenario.emptyNet Scenario.person
               100 Scenario.walkedToStopA Scenario.rideBus _ _)).
  vm_compute. reflexivity.
Defined.

(** X2. [proceed] throws in one situation only: the triggered start of the
    first real stage, when the first accepted line names no registered
    vehicle. *)
Theorem proceed_throws_iff :
  forall (net : MSNet) (transportable : MSTransportable) (now : SUMOTime)
         (previous : MSStage) (s : MSStageDriving),
    (exists e s' calls,
        proceed net transportable now previous s = Throws e s' calls)
    <-> (isTriggeredFirstStage transportable = true
         /\ exists vehID,
             set_begin (myLines s) = Some vehID
             /\ getVehicle net vehID = None).
Proof.
  intros net transportable now previous s. rewrite proceed_equation. split.
  - intros (e & s' & calls & H).
    destruct (isTriggeredFirstStage transportable).
    + destruct (set_begin (myLines s)) as [vehID | ]; [ | discriminate].
      destruct (getVehicle net vehID) as [v | ] eqn:Hveh; [discriminate | ].
      split; [reflexivity | exists vehID; split; [reflexivity | exact Hveh]].
    + destruct (waitingLocation transportable now previous) as [[we sp] p].
      destruct we as [edge | ]; [ | discriminate].
      destruct (getWaitingVehicle net edge transportable p) as [av | ];
        [destruct (boardsAtOnce net transportable av) | ]; discriminate.
  - intros (-> & vehID & -> & ->). do 3 eexists. reflexivity.
Qed.

(** X3. [proceed] has no defined behaviour in exactly two situations: a
    triggered start with no accepted line (it dereferences [begin()] of an
    empty set), and a start from no stop when the previous stage has no
    edge (it calls [getWaitingVehicle] on a null edge). *)
Theorem proceed_undefined_iff :
  forall (net : MSNet) (transportable : MSTransportable) (now : SUMOTime)
         (previous : MSStage) (s : MSStageDriving),
    proceed net transportable now previous s = Undefined
    <-> ((isTriggeredFirstStage transportable = true /\ myLines s = ∅)
         \/ (isTriggeredFirstStage transportable = false
             /\ originStop previous = None
             /\ prev_getEdge previous = None)).
Proof.
  intros net transportable now previous s. rewrite proceed_equation.
  unfold waitingLocation.
  destruct (isTriggeredFirstStage transportable).
  - rewrite <- set_begin_None_iff.
    destruct (set_begin (myLines s)) as [vehID | ].
    + destruct (getVehicle net vehID); split;
        [discriminate | intros [[_ H] | [H _]]; discriminate
        | discriminate | intros [[_ H] | [H _]]; discriminate].
    + split; [intros _; left; split; reflexivity | reflexivity].
  - destruct (originStop previous) as [st | ].
    + destruct (getWaitingVehicle net _ _ _) as [av | ];
        [destruct (boardsAtOnce net transportable av) | ];
        (split; [discriminate | intros [[H _] | (_ & H & _)]; discriminate]).
    + destruct (prev_getEdge previous) as [edge | ].
      * destruct (getWaitingVehicle net _ _ _) as [av | ];
          [destruct (boardsAtOnce net transportable av) | ];
          (split; [discriminate | intros [[H _] | (_ & _ & H)]; discriminate]).
      * split; [intros _; right; repeat split; reflexivity | reflexivity].
Qed.

(** X4. Triggered start with the vehicle registered: [proceed] binds the
    vehicle the registry holds under the first accepted line, caches its id,
    line and class, stores its distance so far as baseline, calls
    [addTransportable] on it and nothing else, and leaves the waiting edge
    and position as they were. If the registry holds the vehicle under its
    own id, the stage's [isWaitingFor] accepts the vehicle it was bound to. *)
Theorem proceed_triggered_start_binds :
  forall (net : MSNet) (transportable : MSTransportable) (now : SUMOTime)
         (previous : MSStage) (s : MSStageDriving) (vehID : string)
         (v : VehPtr),
    isTriggeredFirstStage transportable = true ->
    set_begin (myLines s) = Some vehID ->
    getVehicle net vehID = Some v ->
    exists s' : MSStageDriving,
      proceed net transportable now previous s
      = Returns s' [Vehicle_addTransportable v transportable]
      /\ myVehicle s' = Some v
      /\ myVehicleID s' = getID (vehicles net v)
      /\ myVehicleLine s' = getParameter_line (vehicles net v)
      /\ myVehicleVClass s' = getVClass (vehicles net v)
      /\ myVehicleDistance s' = routeDistanceSoFar (vehicles net v)
      /\ myWaitingEdge s' = myWaitingEdge s
      /\ myWaitingPos s' = myWaitingPos s
      /\ (getID (vehicles net v) = vehID ->
          isWaitingFor (vehicles net v) s' = true).
Proof.
  intros net transportable now previous s vehID v Htrig Hbegin Hveh.
  exists (setVehicle (vehicles net) v (set_myWaitingSince now s)).
  rewrite proceed_equation, Htrig, Hbegin, Hveh.
  repeat split.
  intros Hid. unfold isWaitingFor. simpl.
  apply set_begin_elem_of in Hbegin. rewrite <- Hid in Hbegin.
  apply set_count_pos in Hbegin. rewrite Hbegin. reflexivity.
Qed.

Lemma proceed_triggered_start_binds_witness :
  exists s' : MSStageDriving,
    proceed Depot.registered Scenario.triggeredPerson 100
      Scenario.walkedOnEdgeA Scenario.rideVeh0
    = Returns s' [Vehicle_addTransportable 7%nat Scenario.triggeredPerson]
    /\ myVehicle s' = Some 7%nat
    /\ myVehicleID s' = "veh0"
    /\ myWaitingEdge s' = None
    /\ isWaitingFor Depot.triggeredBus s' = true.
Proof.
  destruct (proceed_triggered_start_binds Depot.registered
              Scenario.triggeredPerson 100 Scenario.walkedOnEdgeA
              Scenario.rideVeh0 "veh0" 7%nat)
    as (s' & Hret & Hv & Hid & _ & _ & _ & Hedge & _ & Haccept);
    try (vm_compute; reflexivity).
  exists s'. repeat split.
  - exact Hret.
  - exact Hv.
  - exact Hid.
  - exact Hedge.
  - apply Haccept. reflexivity.
Defined.

(** X5. Outside the triggered start, on a stage that is not bound yet,
    [proceed] binds a vehicle exactly when the waiting edge offers one at
    the waiting position whose departure is triggered by this kind of
    transportable (persons: [DEPART_TRIGGERED], containers:
    [DEPART_CONTAINER_TRIGGERED]) and which has not departed. It then calls
    [addTransportable], hands the vehicle to the insertion control, removes
    it from the edge's waiting vehicles and calls
    [unregisterOneWaiting(true)], for a container too. *)
Theorem proceed_boards_iff :
  forall (net : MSNet) (transportable : MSTransportable) (now : SUMOTime)
         (previous : MSStage) (s s' : MSStageDriving) (calls : list Call)
         (v : VehPtr),
    isTriggeredFirstStage transportable = false ->
    myVehicle s = None ->
    proceed net transportable now previous s = Returns s' calls ->
    exists (edge : MSEdge) (pos : float),
      myWaitingEdge s' = Some edge
      /\ myWaitingPos s' = Some pos
      /\ (myVehicle s' = Some v
          <-> (getWaitingVehicle net edge transportable pos = Some v
               /\ boardsAtOnce net transportable v = true))
      /\ (myVehicle s' = Some v ->
          calls = [Vehicle_addTransportable v transportable;
                   InsertionControl_add v;
                   Edge_removeWaiting edge v;
                   VehicleControl_unregisterOneWaiting true]).
Proof.
  intros net transportable now previous s s' calls v Hnot Hunbound.
  rewrite proceed_equation, Hnot.
  destruct (waitingLocation transportable now previous) as [[e sp] p].
  destruct e as [edge | ]; [ | discriminate].
  destruct (getWaitingVehicle net edge transportable p) as [av | ] eqn:Hav;
    [destruct (boardsAtOnce net transportable av) eqn:Hboards | ];
    intros [= <- <-]; exists edge, p; simpl; rewrite ?Hunbound, ?Hav;
    (split; [reflexivity | split; [reflexivity | ]]).
  - split; [split | ].
    + intros [= ->]. split; [reflexivity | exact Hboards].
    + intros [H _]. exact H.
    + intros [= ->]. reflexivity.
  - split; [split | ].
    + discriminate.
    + intros [[= ->] Hb]. rewrite Hb in Hboards. discriminate.
    + discriminate.
  - split; [split | ].
    + discriminate.
    + intros [H _]. discriminate.
    + discriminate.
Qed.

Lemma proceed_boards_iff_witness :
  exists (s' : MSStageDriving) (calls : list Call),
    proceed Depot.pickup Scenario.person 100 Scenario.walkedToStopA
      Scenario.rideBus = Returns s' calls
    /\ myVehicle s' = Some 3%nat
    /\ calls = [Vehicle_addTransportable 3%nat Scenario.person;
                InsertionControl_add 3%nat;
                Edge_removeWaiting Scenario.edgeA 3%nat;
                VehicleControl_unregisterOneWaiting true].
Proof.
  pose (o := proceed Depot.pickup Scenario.person 100 Scenario.walkedToStopA
               Scenario.rideBus).
  assert (Ho : exists s' calls,
             o = Returns s' calls /\ myVehicle s' = Some 3%nat
             /\ myWaitingEdge s' = Some Scenario.edgeA)
    by (do 2 eexists; vm_compute; repeat split; reflexivity).
  destruct Ho as (s' & calls & Ho & Hv & He).
  exists s', calls. split; [exact Ho | split; [exact Hv | ]].
  destruct (proceed_boards_iff Depot.pickup Scenario.person 100
              Scenario.walkedToStopA Scenario.rideBus s' calls 3%nat)
    as (edge & pos & Hedge & _ & _ & Hcalls).
  - reflexivity.
  - reflexivity.
  - exact Ho.
  - rewrite He in Hedge. injection Hedge as <-. apply Hcalls. exact Hv.
Defined.

(** A container does not board a vehicle whose departure is triggered by a
    person: it is registered as waiting instead. *)
Example container_does_not_board_person_triggered :
  exists s' : MSStageDriving,
    proceed Depot.pickup Scenario.container 100 Scenario.walkedToStopA
      Scenario.rideBus
    = Returns s'
        [ContainerControl_addWaiting Scenario.edgeA Scenario.container;
         Edge_addContainer Scenario.edgeA Scenario.container]
    /\ myVehicle s' = None.
Proof. eexists. vm_compute. split; reflexivity. Qed.

(** ** After activation *)

(** A stage [proceed] leaves waiting carries the waiting location. *)
Lemma proceed_Returns_waiting (net : MSNet) (transportable : MSTransportable)
    (now : SUMOTime) (previous : MSStage) (s s' : MSStageDriving)
    (calls : list Call) :
  proceed net transportable now previous s = Returns s' calls ->
  myVehicle s' = None ->
  exists (edge : MSEdge) (stopPos : Position) (pos : float),
    waitingLocation transportable now previous = (Some edge, stopPos, pos)
    /\ s' = set_waiting_location (Some edge) stopPos pos
              (set_myWaitingSince now s)
    /\ calls = waitingCalls transportable now edge pos s.
Proof.
  rewrite proceed_equation.
  destruct (isTriggeredFirstStage transportable).
  - destruct (set_begin (myLines s)) as [vehID | ]; [ | discriminate].
    destruct (getVehicle net vehID) as [v | ]; [ | discriminate].
    intros [= <- <-]. discriminate.
  - destruct (waitingLocation transportable now previous) as [[e sp] p].
    destruct e as [edge | ]; [ | discriminate].
    destruct (getWaitingVehicle net edge transportable p) as [av | ];
      [destruct (boardsAtOnce net transportable av) | ];
      intros [= <- <-] Hv; try discriminate Hv;
      exists edge, sp, p; repeat split.
Qed.

(** X6. When [proceed] leaves the stage waiting, the edge queries answer
    the location it started from: with an origin stop (the previous stage's
    origin stop if that stage is a trip, its destination stop otherwise),
    [getEdge] and [getFromEdge] are the edge of the stop's lane and
    [getEdgePos] is the stop's waiting position on the lane; without one,
    they are the previous stage's edge, which is not null, and its edge
    position at the time of the call. *)
Theorem proceed_waiting_edge_and_pos :
  forall (net : MSNet) (transportable : MSTransportable) (now : SUMOTime)
         (previous : MSStage) (s s' : MSStageDriving) (calls : list Call)
         (veh : VehicleStore) (later : SUMOTime),
    proceed net transportable now previous s = Returns s' calls ->
    myVehicle s' = None ->
    match originStop previous with
    | Some st =>
        getEdge veh s' = Some (stop_getLaneEdge st)
        /\ getFromEdge s' = Some (stop_getLaneEdge st)
        /\ getEdgePos veh later s'
           = Some (stop_getWaitingPositionOnLane st transportable)
    | None =>
        getEdge veh s' = prev_getEdge previous
        /\ getFromEdge s' = prev_getEdge previous
        /\ prev_getEdge previous <> None
        /\ getEdgePos veh later s' = Some (prev_getEdgePos previous now)
    end.
Proof.
  intros net transportable now previous s s' calls veh later Hret Hwaiting.
  destruct (proceed_Returns_waiting _ _ _ _ _ _ _ Hret Hwaiting)
    as (edge & sp & pos & Hloc & -> & _).
  unfold waitingLocation in Hloc. simpl in Hwaiting.
  unfold getEdge, getFromEdge, getEdgePos, isWaiting4Vehicle. simpl.
  rewrite Hwaiting.
  destruct (originStop previous) as [st | ]; injection Hloc as Hedge Hsp Hpos.
  - subst. repeat split.
  - rewrite Hedge, Hpos. repeat split. discriminate.
Qed.

Lemma proceed_waiting_edge_and_pos_witness :
  exists s' : MSStageDriving,
    stage_of (proceed Scenario.emptyNet Scenario.person 100
                Scenario.walkedToStopA Scenario.rideBus) = Some s'
    /\ getEdge Scenario.passingBy s' = Some Scenario.edgeA
    /\ getEdgePos Scenario.passingBy 130 s' = Some 40%float.
Proof.
  pose (o := proceed Scenario.emptyNet Scenario.person 100
               Scenario.walkedToStopA Scenario.rideBus).
  assert (Ho : exists s' calls, o = Returns s' calls /\ myVehicle s' = None)
    by (do 2 eexists; vm_compute; split; reflexivity).
  destruct Ho as (s' & calls & Ho & Hv).
  exists s'. split; [unfold o in Ho; rewrite Ho; reflexivity | ].
  destruct (proceed_waiting_edge_and_pos Scenario.emptyNet Scenario.person 100
              Scenario.walkedToStopA Scenario.rideBus s' calls
              Scenario.passingBy 130 Ho Hv) as (Hedge & _ & Hpos).
  split; [exact Hedge | exact Hpos].
Defined.

Lemma Position_INVALID_is_invalid :
  Position_neq Position_INVALID Position_INVALID = false.
Proof. vm_compute. reflexivity. Qed.

(** X7. The spatial position of a stage [proceed] left waiting: started
    from a stop whose wait position differs from [Position::INVALID], it is
    that wait position; started from no stop, it is the edge position of
    the previous stage's edge and edge position, moved sideways by
    [ROADSIDE_OFFSET], to the other side ([-ROADSIDE_OFFSET]) in a left-hand
    network. *)
Theorem proceed_waiting_position :
  forall (net : MSNet) (transportable : MSTransportable) (now : SUMOTime)
         (previous : MSStage) (s s' : MSStageDriving) (calls : list Call)
         (env : Surroundings) (later : SUMOTime),
    proceed net transportable now previous s = Returns s' calls ->
    myVehicle s' = None ->
    match originStop previous with
    | Some st =>
        Position_neq (stop_getWaitPosition st transportable) Position_INVALID
        = true ->
        getPosition env later s' = Some (stop_getWaitPosition st transportable)
    | None =>
        getPosition env later s'
        = Some (getEdgePosition env (prev_getEdge previous)
                  (prev_getEdgePos previous now)
                  (ROADSIDE_OFFSET env
                   * (if lefthand env then -1 else 1))%float)
    end.
Proof.
  intros net transportable now previous s s' calls env later Hret Hwaiting.
  destruct (proceed_Returns_waiting _ _ _ _ _ _ _ Hret Hwaiting)
    as (edge & sp & pos & Hloc & -> & _).
  unfold waitingLocation in Hloc. simpl in Hwaiting.
  unfold getPosition, isWaiting4Vehicle. simpl. rewrite Hwaiting.
  destruct (originStop previous) as [st | ]; injection Hloc as Hedge Hsp Hpos.
  - intros Hvalid. subst sp. rewrite Hvalid. reflexivity.
  - subst sp. rewrite Position_INVALID_is_invalid, Hedge, Hpos. reflexivity.
Qed.

Lemma proceed_waiting_position_witness :
  exists s1 s2 : MSStageDriving,
    stage_of (proceed Scenario.emptyNet Scenario.person 100
                Scenario.walkedToStopA Scenario.rideBus) = Some s1
    /\ getPosition Depot.rightHand 130 s1
       = Some (mkPosition 10%float 2%float 0%float)
    /\ stage_of (proceed Scenario.emptyNet Scenario.person 100
                   Scenario.walkedOnEdgeA Scenario.rideBus) = Some s2
    /\ getPosition Depot.rightHand 130 s2
       = Some (mkPosition 38%float 3%float 0%float).
Proof.
  pose (o1 := proceed Scenario.emptyNet Scenario.person 100
                Scenario.walkedToStopA Scenario.rideBus).
  pose (o2 := proceed Scenario.emptyNet Scenario.person 100
                Scenario.walkedOnEdgeA Scenario.rideBus).
  assert (H1 : exists s' calls, o1 = Returns s' calls /\ myVehicle s' = None)
    by (do 2 eexists; vm_compute; split; reflexivity).
  assert (H2 : exists s' calls, o2 = Returns s' calls /\ myVehicle s' = None)
    by (do 2 eexists; vm_compute; split; reflexivity).
  destruct H1 as (s1 & c1 & H1 & Hv1). destruct H2 as (s2 & c2 & H2 & Hv2).
  exists s1, s2.
  split; [unfold o1 in H1; rewrite H1; reflexivity | ].
  split.
  - apply (proceed_waiting_position Scenario.emptyNet Scenario.person 100
             Scenario.walkedToStopA Scenario.rideBus s1 c1 Depot.rightHand
             130 H1 Hv1).
    vm_compute. reflexivity.
  - split; [unfold o2 in H2; rewrite H2; reflexivity | ].
    exact (proceed_waiting_position Scenario.emptyNet Scenario.person 100
             Scenario.walkedOnEdgeA Scenario.rideBus s2 c2 Depot.rightHand
             130 H2 Hv2).
Defined.

(** X8. A stage [proceed] left waiting at time [now] has waited [0] at that
    time and [d] after [d] more time units, for every [d] that is a
    [SUMOTime] value (for any other [d], what 64 bits keep of it); a stage
    it bound has waited [0] at any time. *)
Theorem proceed_then_getWaitingTime :
  forall (net : MSNet) (transportable : MSTransportable) (now : SUMOTime)
         (previous : MSStage) (s s' : MSStageDriving) (d : Z),
    stage_of (proceed net transportable now previous s) = Some s' ->
    getWaitingTime (now + d) s'
    = (if isWaiting4Vehicle s' then SUMOTime_wrap d else 0)
    /\ (SUMOTime_representable d ->
        getWaitingTime (now + d) s' = if isWaiting4Vehicle s' then d else 0).
Proof.
  intros net transportable now previous s s' d Hstage.
  assert (Hsince : myWaitingSince s' = now).
  { destruct (stage_of_proceed _ _ _ _ _ _ Hstage)
      as (s1 & [-> | (e & sp & p & ->)] & [-> | [v ->]]); reflexivity. }
  assert (Hwrap : getWaitingTime (now + d) s'
                  = if isWaiting4Vehicle s' then SUMOTime_wrap d else 0).
  { unfold getWaitingTime, SUMOTime_sub. rewrite Hsince.
    replace (now + d - now) with d by lia. reflexivity. }
  split; [exact Hwrap | ].
  intros Hd. rewrite Hwrap, (SUMOTime_wrap_representable d Hd). reflexivity.
Qed.

Lemma proceed_then_getWaitingTime_witness :
  exists s' : MSStageDriving,
    stage_of (proceed Scenario.emptyNet Scenario.person 100
                Scenario.walkedToStopA Scenario.rideBus) = Some s'
    /\ getWaitingTime (100 + 30) s' = 30.
Proof.
  pose (o := proceed Scenario.emptyNet Scenario.person 100
               Scenario.walkedToStopA Scenario.rideBus).
  assert (Ho : exists s', stage_of o = Some s' /\ isWaiting4Vehicle s' = true)
    by (eexists; vm_compute; split; reflexivity).
  destruct Ho as (s' & Ho & Hw). exists s'. split; [exact Ho | ].
  rewrite (proj2 (proceed_then_getWaitingTime Scenario.emptyNet
                    Scenario.person 100 Scenario.walkedToStopA
                    Scenario.rideBus s' 30 Ho)).
  - rewrite Hw. reflexivity.
  - unfold SUMOTime_representable. lia.
Defined.

(** ** The matching predicate over the life of a stage *)

Lemma isWaitingFor_plan (vehicle : SUMOVehicle) (s1 s2 : MSStageDriving) :
  myLines s1 = myLines s2 ->
  myDestinationStop s1 = myDestinationStop s2 ->
  myDestination s1 = myDestination s2 ->
  isWaitingFor vehicle s1 = isWaitingFor vehicle s2.
Proof. unfold isWaitingFor. intros -> -> ->. reflexivity. Qed.

Lemma setArrived_keeps_plan (veh : VehicleStore) (now : SUMOTime)
    (s : MSStageDriving) :
  myLines (fst (setArrived veh now s)) = myLines s
  /\ myDestinationStop (fst (setArrived veh now s)) = myDestinationStop s
  /\ myDestination (fst (setArrived veh now s)) = myDestination s
  /\ myIntendedVehicleID (fst (setArrived veh now s)) = myIntendedVehicleID s
  /\ myIntendedDepart (fst (setArrived veh now s)) = myIntendedDepart s
  /\ myWaitingEdge (fst (setArrived veh now s)) = myWaitingEdge s.
Proof.
  destruct_stage s v; unfold setArrived, MSStage_setArrived; simpl;
    [destruct (isStopped (veh v)) | ]; repeat split.
Qed.

(** X9. Which vehicles a stage accepts is fixed by its plan: a clone
    accepts exactly the vehicles the stage accepts, and binding, arrival and
    activation (whether it returns or throws) do not change the answer of
    [isWaitingFor] for any vehicle. *)
Theorem isWaitingFor_stable :
  forall (vehicle : SUMOVehicle) (s : MSStageDriving),
    isWaitingFor vehicle (clone s) = isWaitingFor vehicle s
    /\ (forall (veh : VehicleStore) (v : VehPtr),
           isWaitingFor vehicle (setVehicle veh v s) = isWaitingFor vehicle s)
    /\ (forall (veh : VehicleStore) (now : SUMOTime),
           isWaitingFor vehicle (fst (setArrived veh now s))
           = isWaitingFor vehicle s)
    /\ (forall (net : MSNet) (transportable : MSTransportable)
               (now : SUMOTime) (previous : MSStage) (s' : MSStageDriving),
           stage_of (proceed net transportable now previous s) = Some s' ->
           isWaitingFor vehicle s' = isWaitingFor vehicle s).
Proof.
  intros vehicle s. split; [ | split; [ | split]].
  - apply isWaitingFor_plan; [ | reflexivity | reflexivity].
    unfold clone, MSStageDriving_ctor. simpl. apply list_to_set_set_iter.
  - intros veh v. reflexivity.
  - intros veh now.
    destruct (setArrived_keeps_plan veh now s) as (Hl & Hs & Hd & _).
    apply isWaitingFor_plan; assumption.
  - intros net transportable now previous s' Hstage.
    destruct (stage_of_proceed _ _ _ _ _ _ Hstage)
      as (s1 & [-> | (e & sp & p & ->)] & [-> | [v ->]]); reflexivity.
Qed.

Lemma isWaitingFor_stable_witness :
  exists s' : MSStageDriving,
    stage_of (proceed Scenario.emptyNet Scenario.person 100
                Scenario.walkedToStopA Scenario.rideBus) = Some s'
    /\ isWaitingFor (Scenario.bus 0%float false) s' = true
    /\ isWaitingFor (Scenario.bus 0%float false) (clone Depot.finished)
       = true.
Proof.
  pose (o := proceed Scenario.emptyNet Scenario.person 100
               Scenario.walkedToStopA Scenario.rideBus).
  assert (Ho : exists s', stage_of o = Some s')
    by (eexists; vm_compute; reflexivity).
  destruct Ho as (s' & Ho). exists s'. split; [exact Ho | split].
  - rewrite (proj2 (proj2 (proj2 (isWaitingFor_stable
               (Scenario.bus 0%float false) Scenario.rideBus)))
               Scenario.emptyNet Scenario.person 100 Scenario.walkedToStopA
               s' Ho).
    vm_compute. reflexivity.
  - rewrite (proj1 (isWaitingFor_stable (Scenario.bus 0%float false)
                      Depot.finished)).
    vm_compute. reflexivity.
Defined.

(** X10. A stage with no accepted line accepts no vehicle, whatever the
    vehicle's id, line and stops. *)
Theorem isWaitingFor_no_lines :
  forall (vehicle : SUMOVehicle) (s : MSStageDriving),
    myLines s = ∅ ->
    isWaitingFor vehicle s = false.
Proof.
  intros vehicle s Hempty. unfold isWaitingFor, set_count. rewrite Hempty.
  repeat (destruct (decide _) as [Hin | _];
          [apply not_elem_of_empty in Hin; contradiction | ]).
  reflexivity.
Qed.

Lemma isWaitingFor_no_lines_witness :
  isWaitingFor Depot.triggeredBus Depot.noLines = false.
Proof.
  apply (isWaitingFor_no_lines Depot.triggeredBus Depot.noLines).
  reflexivity.
Defined.

(** ** Abort *)

(** X11. [abort] undoes where [proceed] put the transportable. After a
    [proceed] on an unbound stage: if the stage was bound, [abort] removes
    the transportable from the very vehicle [proceed] added it to; if it was
    left waiting, [abort] cancels the wait at the person control for a
    person and at the container control for a container, the control
    [proceed] registered it with. *)
Theorem abort_after_proceed :
  forall (net : MSNet) (transportable : MSTransportable) (now : SUMOTime)
         (previous : MSStage) (s s' : MSStageDriving) (calls : list Call),
    myVehicle s = None ->
    proceed net transportable now previous s = Returns s' calls ->
    match myVehicle s' with
    | Some v =>
        abort transportable s' = [Vehicle_removeTransportable v transportable]
        /\ In (Vehicle_addTransportable v transportable) calls
    | None =>
        exists edge : MSEdge,
          myWaitingEdge s' = Some edge
          /\ if t_isPerson transportable
             then abort transportable s'
                  = [PersonControl_abortWaitingForVehicle transportable]
                  /\ In (PersonControl_addWaiting edge transportable) calls
             else abort transportable s'
                  = [ContainerControl_abortWaitingForVehicle transportable]
                  /\ In (ContainerControl_addWaiting edge transportable) calls
    end.
Proof.
  intros net transportable now previous s s' calls Hunbound.
  rewrite proceed_equation.
  destruct (isTriggeredFirstStage transportable).
  - destruct (set_begin (myLines s)) as [vehID | ]; [ | discriminate].
    destruct (getVehicle net vehID) as [v | ]; [ | discriminate].
    intros [= <- <-]. simpl. split; [reflexivity | left; reflexivity].
  - destruct (waitingLocation transportable now previous) as [[e sp] p].
    destruct e as [edge | ]; [ | discriminate].
    assert (Hwait :
      let s1 := set_waiting_location (Some edge) sp p
                  (set_myWaitingSince now s) in
      match myVehicle s1 with
      | Some v =>
          abort transportable s1
          = [Vehicle_removeTransportable v transportable]
          /\ In (Vehicle_addTransportable v transportable)
               (waitingCalls transportable now edge p s)
      | None =>
          exists edge0 : MSEdge,
            myWaitingEdge s1 = Some edge0
            /\ if t_isPerson transportable
               then abort transportable s1
                    = [PersonControl_abortWaitingForVehicle transportable]
                    /\ In (PersonControl_addWaiting edge0 transportable)
                         (waitingCalls transportable now edge p s)
               else abort transportable s1
                    = [ContainerControl_abortWaitingForVehicle transportable]
                    /\ In (ContainerControl_addWaiting edge0 transportable)
                         (waitingCalls transportable now edge p s)
      end).
    { simpl. rewrite Hunbound. exists edge. split; [reflexivity | ].
      unfold abort, waitingCalls. simpl. rewrite Hunbound.
      destruct (t_isPerson transportable);
        (split; [reflexivity | left; reflexivity]). }
    destruct (getWaitingVehicle net edge transportable p) as [av | ];
      [destruct (boardsAtOnce net transportable av) | ];
      intros [= <- <-]; try exact Hwait.
    simpl. split; [reflexivity | left; reflexivity].
Qed.

Lemma abort_after_proceed_witness :
  exists (s' : MSStageDriving) (calls : list Call),
    proceed Scenario.emptyNet Scenario.container 100 Scenario.walkedToStopA
      Scenario.rideBus = Returns s' calls
    /\ abort Scenario.container s'
       = [ContainerControl_abortWaitingForVehicle Scenario.container]
    /\ In (ContainerControl_addWaiting Scenario.edgeA Scenario.container)
         calls.
Proof.
  pose (o := proceed Scenario.emptyNet Scenario.container 100
               Scenario.walkedToStopA Scenario.rideBus).
  assert (Ho : exists s' calls,
             o = Returns s' calls /\ myVehicle s' = None
             /\ myWaitingEdge s' = Some Scenario.edgeA)
    by (do 2 eexists; vm_compute; repeat split; reflexivity).
  destruct Ho as (s' & calls & Ho & Hv & He).
  exists s', calls. split; [exact Ho | ].
  pose proof (abort_after_proceed Scenario.emptyNet Scenario.container 100
                Scenario.walkedToStopA Scenario.rideBus s' calls eq_refl Ho)
    as H.
  rewrite Hv in H. destruct H as (edge & Hedge & H).
  rewrite He in Hedge. injection Hedge as <-. exact H.
Defined.

(** ** Descriptions *)

Lemma prefix_append (a b : string) : String.prefix a (a +:+ b) = true.
Proof.
  induction a as [ | c a IH]; simpl.
  - destruct b as [ | c b]; simpl; [ | reflexivity].
    destruct (string_dec EmptyString EmptyString) as [_ | Hne];
      [reflexivity | contradiction].
  - destruct (Ascii.ascii_dec c c) as [_ | Hne]; [exact IH | contradiction].
Qed.

Lemma append_assoc (a b c : string) : (a +:+ b) +:+ c = a +:+ (b +:+ c).
Proof.
  induction a as [ | x a IH]; [reflexivity | ].
  change (String x ((a +:+ b) +:+ c) = String x (a +:+ (b +:+ c))).
  f_equal. exact IH.
Qed.

Lemma prefix_append_2 (a b c : string) :
  String.prefix (a +:+ b) (a +:+ b +:+ c) = true.
Proof. rewrite <- (append_assoc a b c). apply prefix_append. Qed.

(** X12. Both longer descriptions extend the short one: whenever
    [getStageSummary] has a value, it starts with [getStageDescription]
    (for a bound container, "transported ..." starts with "transport"); and
    the waiting description of a waiting stage, when it has a value, starts
    with [getStageDescription] too. *)
Theorem descriptions_extend_getStageDescription :
  forall (time2string : SUMOTime -> string) (isPerson : bool)
         (s : MSStageDriving),
    match getStageSummary time2string isPerson s with
    | Some summary =>
        String.prefix (getStageDescription isPerson s) summary = true
    | None => myDestinationStop s = None /\ myDestination s = None
    end
    /\ match getWaitingDescription s with
       | Some d =>
           if isWaiting4Vehicle s
           then String.prefix (getStageDescription isPerson s) d = true
           else d = EmptyString
       | None =>
           myVehicle s = None /\ myDestinationStop s = None
           /\ myWaitingEdge s = None
       end.
Proof.
  intros time2string isPerson s. split.
  - unfold getStageSummary, getStageDescription, getDestination.
    destruct (myDestinationStop s) as [stop | ];
      [ | destruct (myDestination s) as [e | ]; [ | split; reflexivity]];
      (destruct (isWaiting4Vehicle s);
       [apply prefix_append_2 | destruct isPerson; reflexivity]).
  - unfold getWaitingDescription, getStageDescription, isWaiting4Vehicle.
    destruct (myVehicle s) as [v | ]; [reflexivity | ].
    destruct (myDestinationStop s) as [stop | ];
      [apply prefix_append_2 | ].
    destruct (myWaitingEdge s) as [e | ];
      [apply prefix_append_2 | repeat split].
Qed.

Example descriptions_of_a_waiting_stage :
  let s := set_waiting_location (Some Scenario.edgeA) Position_INVALID
             38%float Scenario.rideVeh0 in
  getStageDescription true s = "waiting for veh0"
  /\ getStageSummary (fun _ => "0.00") true s
     = Some "waiting for veh0 (vehicle veh0 at time 0.00) then driving to  edge 'E2'"
  /\ getWaitingDescription s = Some "waiting for veh0 at edge 'E1'".
Proof. vm_compute. repeat split; reflexivity. Qed.

(** X13. A stage that has never been activated and has no destination
    stop has no defined waiting description, whatever it was constructed
    from: the edge branch dereferences the null waiting edge. *)
Theorem getWaitingDescription_before_activation :
  forall (destination : option MSEdge) (arrivalPos : float)
         (lines : list string) (intendedVeh : string)
         (intendedDepart : SUMOTime),
    getWaitingDescription
      (MSStageDriving_ctor destination None arrivalPos lines intendedVeh
         intendedDepart)
    = None
    /\ getWaitingDescription
         (clone (MSStageDriving_ctor destination None arrivalPos lines
                   intendedVeh intendedDepart))
       = None.
Proof. intros. split; reflexivity. Qed.

(** X14. Once [proceed] has returned, the waiting description has a
    value: the stage is bound, or its waiting edge is not null. *)
Theorem proceed_then_getWaitingDescription :
  forall (net : MSNet) (transportable : MSTransportable) (now : SUMOTime)
         (previous : MSStage) (s s' : MSStageDriving) (calls : list Call),
    proceed net transportable now previous s = Returns s' calls ->
    exists d : string, getWaitingDescription s' = Some d.
Proof.
  intros net transportable now previous s s' calls Hret.
  destruct (myVehicle s') as [v | ] eqn:Hv.
  - exists EmptyString. unfold getWaitingDescription, isWaiting4Vehicle.
    rewrite Hv. reflexivity.
  - destruct (proceed_Returns_waiting _ _ _ _ _ _ _ Hret Hv)
      as (edge & sp & pos & _ & -> & _).
    unfold getWaitingDescription, isWaiting4Vehicle. simpl in *. rewrite Hv.
    destruct (myDestinationStop s); eexists; reflexivity.
Qed.

Lemma proceed_then_getWaitingDescription_witness :
  exists s' : MSStageDriving,
    stage_of (proceed Scenario.emptyNet Scenario.person 100
                Scenario.walkedOnEdgeA Scenario.rideTaxi) = Some s'
    /\ getWaitingDescription Scenario.rideTaxi = None
    /\ exists d : string, getWaitingDescription s' = Some d.
Proof.
  pose (o := proceed Scenario.emptyNet Scenario.person 100
               Scenario.walkedOnEdgeA Scenario.rideTaxi).
  assert (Ho : exists s' calls, o = Returns s' calls)
    by (do 2 eexists; vm_compute; reflexivity).
  destruct Ho as (s' & calls & Ho). exists s'.
  split; [unfold o in Ho; rewrite Ho; reflexivity | ].
  split; [reflexivity | ].
  exact (proceed_then_getWaitingDescription Scenario.emptyNet Scenario.person
           100 Scenario.walkedOnEdgeA Scenario.rideTaxi s' calls Ho).
Defined.

(** ** The route fragment *)

Lemma routeOutput_plan (isPerson : bool) (s1 s2 : MSStageDriving) :
  myDestination s1 = myDestination s2 ->
  myDestinationStop s1 = myDestinationStop s2 ->
  myLines s1 = myLines s2 ->
  myIntendedVehicleID s1 = myIntendedVehicleID s2 ->
  myIntendedDepart s1 = myIntendedDepart s2 ->
  myWaitingEdge s1 = myWaitingEdge s2 ->
  routeOutput isPerson false s1 = routeOutput isPerson false s2.
Proof.
  unfold routeOutput, getDestination, getFromEdge.
  intros -> -> -> -> -> ->. reflexivity.
Qed.

(** X15. Without the route length, the route fragment of a stage is the
    same before and after binding and after arrival: it holds the plan and
    the origin edge only. In particular the arrival position, which
    [setArrived] may overwrite, is not part of it. *)
Theorem routeOutput_unchanged_by_ride :
  forall (isPerson : bool) (s : MSStageDriving) (veh0 veh : VehicleStore)
         (v : VehPtr) (now : SUMOTime),
    routeOutput isPerson false (setVehicle veh0 v s)
    = routeOutput isPerson false s
    /\ routeOutput isPerson false (fst (setArrived veh now s))
       = routeOutput isPerson false s
    /\ routeOutput isPerson false
         (fst (setArrived veh now (setVehicle veh0 v s)))
       = routeOutput isPerson false s.
Proof.
  intros isPerson s veh0 veh v now.
  assert (Harr : forall s0,
             routeOutput isPerson false (fst (setArrived veh now s0))
             = routeOutput isPerson false s0).
  { intros s0.
    destruct (setArrived_keeps_plan veh now s0) as (Hl & Hs & Hd & Hi & Ht & He).
    apply routeOutput_plan; assumption. }
  split; [reflexivity | split; [apply Harr | ]].
  rewrite Harr. reflexivity.
Qed.

Example routeOutput_of_a_finished_ride :
  routeOutput true false Depot.finished
  = Some (mkRouteElement "ride"
            [(SUMO_ATTR_FROM, RString "E1");
             (SUMO_ATTR_TO, RString "E2");
             (SUMO_ATTR_BUS_STOP, RString "stopB");
             (SUMO_ATTR_LINES, RLines {[ "bus1" ]})]
            None)
  /\ myArrivalPos Depot.finished = 115%float
  /\ myArrivalPos Scenario.boardedRide = 120%float.
Proof. vm_compute. repeat split; reflexivity. Qed.

Lemma filter_from_app (l1 l2 : list (RouteAttr * RouteValue)) :
  List.filter (fun kv => negb (RouteAttr_eqb (fst kv) SUMO_ATTR_FROM))
    (l1 ++ l2)
  = List.filter (fun kv => negb (RouteAttr_eqb (fst kv) SUMO_ATTR_FROM)) l1
    ++ List.filter (fun kv => negb (RouteAttr_eqb (fst kv) SUMO_ATTR_FROM)) l2.
Proof. apply List.filter_app. Qed.

(** X16. A clone writes the route fragment of the stage it was made from,
    less the origin edge: every other attribute, the tag and the comment
    are the same, and the clone's fragment has no "from". *)
Theorem routeOutput_of_clone :
  forall (isPerson : bool) (s : MSStageDriving),
    routeOutput isPerson false (clone s)
    = option_map without_from (routeOutput isPerson false s).
Proof.
  intros isPerson s.
  unfold routeOutput, getDestination, getFromEdge, clone, MSStageDriving_ctor.
  simpl. rewrite list_to_set_set_iter.
  destruct (myDestination s) as [destination | ]; [ | reflexivity].
  simpl. unfold without_from. simpl. f_equal. f_equal.
  rewrite filter_from_app.
  destruct (myWaitingEdge s) as [e | ]; simpl;
    destruct (myDestinationStop s) as [stop | ]; simpl;
    destruct (negb (String.eqb (myIntendedVehicleID s) EmptyString)); simpl;
    destruct (0 <=? myIntendedDepart s); reflexivity.
Qed.

Example routeOutput_of_clone_of_finished_ride :
  routeOutput true false (clone Depot.finished)
  = Some (mkRouteElement "ride"
            [(SUMO_ATTR_TO, RString "E2");
             (SUMO_ATTR_BUS_STOP, RString "stopB");
             (SUMO_ATTR_LINES, RLines {[ "bus1" ]})]
            None).
Proof. vm_compute. reflexivity. Qed.

(** X17. What can be read back from a route fragment. Each attribute is
    written at most once, so looking a key up gives: the accepted lines and
    the destination edge id always; the destination stop id, the origin edge
    id and the intended vehicle id exactly when the stage has them (the
    intended vehicle id counts as absent when empty); the intended departure
    exactly when it is not negative; the distance exactly when asked for. *)
Theorem routeOutput_read_back :
  forall (isPerson withRouteLength : bool) (s : MSStageDriving)
         (el : RouteElement),
    routeOutput isPerson withRouteLength s = Some el ->
    route_tag el = (if isPerson then "ride" else "transport")
    /\ route_attr SUMO_ATTR_LINES (route_attrs el) = Some (RLines (myLines s))
    /\ route_attr SUMO_ATTR_TO (route_attrs el)
       = option_map (fun e => RString (edge_getID e)) (myDestination s)
    /\ route_attr SUMO_ATTR_BUS_STOP (route_attrs el)
       = option_map (fun st => RString (stop_getID st)) (myDestinationStop s)
    /\ route_attr SUMO_ATTR_FROM (route_attrs el)
       = option_map (fun e => RString (edge_getID e)) (myWaitingEdge s)
    /\ route_attr SUMO_ATTR_INTENDED (route_attrs el)
       = (if String.eqb (myIntendedVehicleID s) EmptyString then None
          else Some (RString (myIntendedVehicleID s)))
    /\ route_attr SUMO_ATTR_DEPART (route_attrs el)
       = (if 0 <=? myIntendedDepart s then Some (RTime (myIntendedDepart s))
          else None)
    /\ route_attr ATTR_routeLength (route_attrs el)
       = (if withRouteLength then Some (RDouble (myVehicleDistance s))
          else None).
Proof.
  intros isPerson withRouteLength s el.
  unfold routeOutput, getDestination, getFromEdge.
  destruct (myDestination s) as [destination | ]; [ | discriminate].
  intros [= <-]. simpl.
  destruct (myWaitingEdge s) as [e | ]; simpl;
    destruct (myDestinationStop s) as [stop | ]; simpl;
    destruct (String.eqb (myIntendedVehicleID s) EmptyString); simpl;
    destruct (0 <=? myIntendedDepart s); simpl;
    destruct withRouteLength; simpl; repeat split; reflexivity.
Qed.

Lemma routeOutput_read_back_witness :
  exists el : RouteElement,
    routeOutput true true Depot.finished = Some el
    /\ route_attr SUMO_ATTR_LINES (route_attrs el) = Some (RLines {[ "bus1" ]})
    /\ route_attr SUMO_ATTR_DEPART (route_attrs el) = None
    /\ route_attr ATTR_routeLength (route_attrs el) = Some (RDouble 70%float).
Proof.
  pose (o := routeOutput true true Depot.finished).
  assert (Ho : exists el, o = Some el) by (eexists; vm_compute; reflexivity).
  destruct Ho as (el & Ho). exists el. split; [exact Ho | ].
  destruct (routeOutput_read_back true true Depot.finished el Ho)
    as (_ & Hlines & _ & _ & _ & _ & Hdepart & Hlen).
  rewrite Hlines, Hdepart, Hlen. vm_compute. repeat split; reflexivity.
Defined.

(** ** The statistics record over the life of a stage *)

(** X18. A stage that has never been activated, fresh from the
    constructor or a clone of any stage, reports only "not set" values:
    waiting time, departure, arrival and duration "-1", vehicle "NULL" and
    distance [-1], at whatever time the record is written. *)
Theorem tripInfoOutput_before_activation :
  forall (now : SUMOTime) (transportable : MSTransportable)
         (s : MSStageDriving),
    snd (tripInfoOutput now transportable (clone s))
    = mkElement (if t_isPerson transportable then "ride" else "transport")
        [("waitingTime", AString "-1");
         ("vehicle", AString "NULL");
         ("depart", AString "-1");
         ("arrival", AString "-1");
         ("arrivalPos", AToString (myArrivalPos s));
         ("duration", AString "-1");
         ("routeLength", ADouble (-1)%float)]
    /\ forall (destination : option MSEdge) (toStop : option MSStoppingPlace)
              (arrivalPos : float) (lines : list string)
              (intendedVeh : string) (intendedDepart : SUMOTime),
        snd (tripInfoOutput now transportable
               (MSStageDriving_ctor destination toStop arrivalPos lines
                  intendedVeh intendedDepart))
        = mkElement (if t_isPerson transportable then "ride" else "transport")
            [("waitingTime", AString "-1");
             ("vehicle", AString "NULL");
             ("depart", AString "-1");
             ("arrival", AString "-1");
             ("arrivalPos", AToString arrivalPos);
             ("duration", AString "-1");
             ("routeLength", ADouble (-1)%float)].
Proof. intros now transportable s. split; [reflexivity | intros; reflexivity]. Qed.

(** X19. For a ride that waited, then departed, then arrived
    ([0 <= waitingSince <= departed <= arrived]) the whole output does not
    depend on the time it is written at; the record's waiting time and
    duration are the values handed to the statistics device,
    [departed - waitingSince] and [arrived - departed], and neither is
    negative. *)
Theorem tripInfoOutput_of_completed_ride :
  forall (now now' : SUMOTime) (transportable : MSTransportable)
         (s : MSStageDriving),
    0 <= myWaitingSince s ->
    myWaitingSince s <= myDeparted s ->
    myDeparted s <= myArrived s ->
    tripInfoOutput now transportable s = tripInfoOutput now' transportable s
    /\ rt_waitingTime (fst (tripInfoOutput now transportable s))
       = myDeparted s - myWaitingSince s
    /\ rt_duration (fst (tripInfoOutput now transportable s))
       = myArrived s - myDeparted s
    /\ attr "waitingTime" (attrs (snd (tripInfoOutput now transportable s)))
       = Some (ATime (myDeparted s - myWaitingSince s))
    /\ attr "duration" (attrs (snd (tripInfoOutput now transportable s)))
       = Some (ATime (myArrived s - myDeparted s))
    /\ 0 <= myDeparted s - myWaitingSince s
    /\ 0 <= myArrived s - myDeparted s.
Proof.
  intros now now' transportable s Hsince Hdep Harr.
  assert (H1 : (0 <=? myDeparted s) = true) by (apply Z.leb_le; lia).
  assert (H2 : (0 <=? myWaitingSince s) = true) by (apply Z.leb_le; lia).
  assert (H3 : (0 <=? myArrived s) = true) by (apply Z.leb_le; lia).
  assert (H4 : (0 <=? myDeparted s - myWaitingSince s) = true)
    by (apply Z.leb_le; lia).
  unfold tripInfoOutput. rewrite H1, H2, H3. simpl. rewrite H4.
  repeat split; lia.
Qed.

Lemma tripInfoOutput_of_completed_ride_witness :
  tripInfoOutput 900 Scenario.person Depot.finished
  = tripInfoOutput 5000 Scenario.person Depot.finished
  /\ attr "waitingTime"
       (attrs (snd (tripInfoOutput 900 Scenario.person Depot.finished)))
     = Some (ATime 60)
  /\ attr "duration"
       (attrs (snd (tripInfoOutput 900 Scenario.person Depot.finished)))
     = Some (ATime 740).
Proof.
  destruct (tripInfoOutput_of_completed_ride 900 5000 Scenario.person
              Depot.finished)
    as (Hsame & _ & _ & Hwait & Hdur & _ & _);
    try (vm_compute; discriminate).
  split; [exact Hsame | split; [exact Hwait | exact Hdur]].
Defined.



(** ** Binding is a snapshot *)

(** X21. The vehicle id, line and class a stage reports are those the
    vehicle had when it was bound: they are still there after [setArrived],
    whatever the vehicle looks like by then, and the statistics record names
    that id, line and class. [setArrived] sets the arrival time and leaves
    [waitingSince], the departure time and the binding alone. *)
Theorem binding_snapshot_survives_arrival :
  forall (veh0 veh : VehicleStore) (v : VehPtr) (now later : SUMOTime)
         (transportable : MSTransportable) (s : MSStageDriving),
    let s' := fst (setArrived veh now (setVehicle veh0 v s)) in
    myVehicle s' = Some v
    /\ myVehicleID s' = getID (veh0 v)
    /\ myVehicleLine s' = getParameter_line (veh0 v)
    /\ myVehicleVClass s' = getVClass (veh0 v)
    /\ myArrived s' = now
    /\ myWaitingSince s' = myWaitingSince s
    /\ myDeparted s' = myDeparted s
    /\ attr "vehicle" (attrs (snd (tripInfoOutput later transportable s')))
       = Some (AString (getID (veh0 v)))
    /\ rt_line (fst (tripInfoOutput later transportable s'))
       = getParameter_line (veh0 v)
    /\ rt_vClass (fst (tripInfoOutput later transportable s'))
       = getVClass (veh0 v).
Proof.
  intros veh0 veh v now later transportable s.
  unfold setArrived, MSStage_setArrived. simpl.
  destruct (isStopped (veh v)); simpl; repeat split; reflexivity.
Qed.

(** A vehicle that was "veh0" of line "bus1" at boarding and is renamed by
    the time of arrival. *)
Example binding_snapshot_of_renamed_vehicle :
  let renamed : VehicleStore :=
    fun _ =>
      mkVehicle "other" "bus9" DEPART_GIVEN SVC_TRUCK Scenario.straight
        5%float 115%float 1%nat None None 0%float true true
        (fun _ => false) (fun _ => false) in
  let s' := fst (setArrived renamed 900
                   (setVehicle Scenario.atBoarding 0%nat Scenario.rideBus)) in
  myVehicleID s' = "veh0" /\ myVehicleLine s' = "bus1"
  /\ myVehicleVClass s' = SVC_BUS /\ myArrivalPos s' = 115%float.
Proof. vm_compute. repeat split; reflexivity. Qed.

(** ** The edge position of a bound stage *)

Lemma float_ltb_leb (a b : float) :
  (a <? b)%float = true -> (a <=? b)%float = true.
Proof.
  rewrite FloatAxioms.ltb_spec, FloatAxioms.leb_spec. unfold SFltb, SFleb.
  destruct (SFcompare (Prim2SF a) (Prim2SF b)) as [[ | | ] | ]; congruence.
Qed.

Lemma float_eqb_leb (a b : float) :
  (a =? b)%float = true -> (a <=? b)%float = true.
Proof.
  rewrite FloatAxioms.eqb_spec, FloatAxioms.leb_spec. unfold SFeqb, SFleb.
  destruct (SFcompare (Prim2SF a) (Prim2SF b)) as [[ | | ] | ]; congruence.
Qed.

Lemma MIN2_le_r (a b : float) :
  (b =? b)%float = true -> (MIN2 a b <=? b)%float = true.
Proof.
  intros Hb. unfold MIN2. destruct (a <? b)%float eqn:Hlt.
  - apply float_ltb_leb. exact Hlt.
  - apply float_eqb_leb. exact Hb.
Qed.

(** X22. The edge position of a bound stage never exceeds the length of
    the edge the stage is on: it is the vehicle's position on its lane if
    that is below the edge length, and the edge length otherwise (the
    vehicle has overrun the lane). The edge length must be a number, not a
    NaN. *)
Theorem getEdgePos_within_edge :
  forall (veh : VehicleStore) (now : SUMOTime) (s : MSStageDriving)
         (v : VehPtr) (e : MSEdge),
    myVehicle s = Some v ->
    getEdge veh s = Some e ->
    (edge_getLength e =? edge_getLength e)%float = true ->
    exists p : float,
      getEdgePos veh now s = Some p
      /\ (p <=? edge_getLength e)%float = true
      /\ p = (if (getPositionOnLane (veh v) <? edge_getLength e)%float
              then getPositionOnLane (veh v) else edge_getLength e).
Proof.
  intros veh now s v e Hv He Hnum.
  exists (MIN2 (getPositionOnLane (veh v)) (edge_getLength e)).
  unfold getEdgePos, isWaiting4Vehicle. rewrite He, Hv.
  split; [reflexivity | split; [apply MIN2_le_r; exact Hnum | reflexivity]].
Qed.

Lemma getEdgePos_within_edge_witness :
  getEdgePos Depot.overrun 500 Depot.underWay = Some 250%float
  /\ getEdgePos Scenario.atArrival 500 Depot.underWay = Some 115%float.
Proof.
  split.
  - pose proof (getEdgePos_within_edge Depot.overrun 500 Depot.underWay 0%nat
                  Scenario.edgeB eq_refl eq_refl eq_refl)
      as (p & Hp & _ & Heq).
    rewrite Hp, Heq. reflexivity.
  - pose proof (getEdgePos_within_edge Scenario.atArrival 500 Depot.underWay
                  0%nat Scenario.edgeB eq_refl eq_refl eq_refl)
      as (p & Hp & _ & Heq).
    rewrite Hp, Heq. reflexivity.
Defined.

(** ** Which line the triggered start looks up *)

#[local] Instance string_le_trans : Transitive string_le.
Proof.
  intros a b c Hab Hbc. unfold string_le in *.
  apply Is_true_true. apply Is_true_true in Hab, Hbc.
  exact (transitivity (R := String.le) Hab Hbc).
Qed.

Lemma set_begin_least (X : gset string) (x y : string) :
  set_begin X = Some x -> y ∈ X -> String.leb x y = true.
Proof.
  unfold set_begin. intros Hhead Hy.
  pose proof (StronglySorted_merge_sort string_le (elements X)) as Hsorted.
  fold (set_iter X) in Hsorted.
  apply elem_of_set_iter in Hy.
  destruct (set_iter X) as [ | z l]; simpl in Hhead; [discriminate | ].
  injection Hhead as ->.
  apply list_elem_of_In in Hy. destruct Hy as [<- | Hy].
  - destruct (String.leb_total x x) as [H | H]; exact H.
  - apply StronglySorted_inv in Hsorted. destruct Hsorted as [_ Hall].
    rewrite List.Forall_forall in Hall. apply Hall. exact Hy.
Qed.

(** X23. In the triggered start, of several accepted lines only the
    smallest in string order is looked up in the vehicle registry: whether
    [proceed] binds or throws is decided by that one id, and the other
    lines are not consulted. *)
Theorem proceed_triggered_start_uses_least_line :
  forall (net : MSNet) (transportable : MSTransportable) (now : SUMOTime)
         (previous : MSStage) (s : MSStageDriving),
    isTriggeredFirstStage transportable = true ->
    myLines s <> ∅ ->
    exists vehID : string,
      vehID ∈ myLines s
      /\ (forall y : string, y ∈ myLines s -> String.leb vehID y = true)
      /\ match getVehicle net vehID with
         | Some v =>
             proceed net transportable now previous s
             = Returns
                 (setVehicle (vehicles net) v (set_myWaitingSince now s))
                 [Vehicle_addTransportable v transportable]
         | None =>
             exists e : ProcessError,
               proceed net transportable now previous s
               = Throws e (set_myWaitingSince now s) []
         end.
Proof.
  intros net transportable now previous s Htrig Hne.
  destruct (set_begin (myLines s)) as [vehID | ] eqn:Hbegin;
    [ | apply set_begin_None_iff in Hbegin; contradiction].
  exists vehID. split; [apply set_begin_elem_of; exact Hbegin | ].
  split; [intros y Hy; apply (set_begin_least _ _ _ Hbegin Hy) | ].
  rewrite proceed_equation, Htrig, Hbegin.
  destruct (getVehicle net vehID) as [v | ]; [reflexivity | ].
  eexists. reflexivity.
Qed.

Lemma proceed_triggered_start_uses_least_line_witness :
  exists s' : MSStageDriving,
    proceed Depot.registered Scenario.triggeredPerson 100
      Scenario.walkedOnEdgeA
      (MSStageDriving_ctor (Some Scenario.edgeB) None 120%float
         ["zebra"; "veh0"; "veh1"] EmptyString (-1))
    = Returns s' [Vehicle_addTransportable 7%nat Scenario.triggeredPerson]
    /\ myVehicleID s' = "veh0".
Proof.
  pose (s := MSStageDriving_ctor (Some Scenario.edgeB) None 120%float
               ["zebra"; "veh0"; "veh1"] EmptyString (-1)).
  assert (Hin : "veh0" ∈ myLines s) by (vm_compute; reflexivity).
  destruct (proceed_triggered_start_uses_least_line Depot.registered
              Scenario.triggeredPerson 100 Scenario.walkedOnEdgeA s)
    as (vehID & Hv & Hleast & Hout).
  - reflexivity.
  - intros Hempty. rewrite Hempty in Hin.
    apply not_elem_of_empty in Hin. exact Hin.
  - assert (HvehID : vehID = "veh0").
    { apply String.leb_antisym; [apply Hleast; exact Hin | ].
      assert (Hcases : vehID = "zebra" \/ vehID = "veh0" \/ vehID = "veh1").
      { unfold s in Hv. simpl in Hv.
        rewrite !elem_of_union, !elem_of_singleton in Hv.
        destruct Hv as [-> | [-> | [-> | Hv]]]; auto.
        apply not_elem_of_empty in Hv. contradiction. }
      destruct Hcases as [-> | [-> | ->]].
      - specialize (Hleast "veh0" Hin). vm_compute in Hleast. discriminate.
      - reflexivity.
      - specialize (Hleast "veh0" Hin). vm_compute in Hleast. discriminate. }
    subst vehID. eexists. split; [exact Hout | reflexivity].
Defined.

(** ** When a reservation is made *)

(** X24. [proceed] on an unbound stage makes a taxi reservation exactly
    when it leaves a person waiting and the accepted lines are the single
    line "taxi": never for a container, never when it binds a vehicle, and
    never when "taxi" is one of several lines. *)
Theorem proceed_reservation_iff :
  forall (net : MSNet) (transportable : MSTransportable) (now : SUMOTime)
         (previous : MSStage) (s s' : MSStageDriving) (calls : list Call),
    myVehicle s = None ->
    proceed net transportable now previous s = Returns s' calls ->
    (existsb is_reservation calls = true
     <-> (myVehicle s' = None
          /\ t_isPerson transportable = true
          /\ myLines s = {[ "taxi" ]})).
Proof.
  intros net transportable now previous s s' calls Hunbound Hret.
  rewrite <- lines_are_taxi_iff.
  destruct (myVehicle s') as [v | ] eqn:Hv.
  - assert (Hnone : existsb is_reservation calls = false).
    { revert Hret. rewrite proceed_equation.
      destruct (isTriggeredFirstStage transportable).
      - destruct (set_begin (myLines s)) as [vehID | ]; [ | discriminate].
        destruct (getVehicle net vehID); [ | discriminate].
        intros [= <- <-]. reflexivity.
      - destruct (waitingLocation transportable now previous) as [[e sp] p].
        destruct e as [edge | ]; [ | discriminate].
        destruct (getWaitingVehicle net edge transportable p) as [av | ];
          [destruct (boardsAtOnce net transportable av) | ];
          intros [= <- <-]; try reflexivity;
          simpl in Hv; rewrite Hunbound in Hv; discriminate. }
    rewrite Hnone. split; [discriminate | intros [H _]; discriminate].
  - destruct (proceed_Returns_waiting _ _ _ _ _ _ _ Hret Hv)
      as (edge & sp & pos & _ & _ & ->).
    unfold waitingCalls.
    destruct (t_isPerson transportable); simpl.
    + destruct (lines_are_taxi (myLines s)); simpl.
      * split; [intros _; repeat split | reflexivity].
      * split; [discriminate | intros (_ & _ & H); discriminate].
    + split; [discriminate | intros (_ & H & _); discriminate].
Qed.

Lemma proceed_reservation_iff_witness :
  exists (s1 s2 : MSStageDriving) (c1 c2 : list Call),
    proceed Scenario.emptyNet Scenario.person 100 Scenario.walkedOnEdgeA
      Scenario.rideTaxi = Returns s1 c1
    /\ existsb is_reservation c1 = true
    /\ proceed Scenario.emptyNet Scenario.person 100 Scenario.walkedOnEdgeA
         (MSStageDriving_ctor (Some Scenario.edgeB) None 120%float
            ["taxi"; "bus1"] EmptyString (-1)) = Returns s2 c2
    /\ existsb is_reservation c2 = false.
Proof.
  pose (o1 := proceed Scenario.emptyNet Scenario.person 100
                Scenario.walkedOnEdgeA Scenario.rideTaxi).
  assert (H1 : exists s' calls, o1 = Returns s' calls /\ myVehicle s' = None)
    by (do 2 eexists; vm_compute; split; reflexivity).
  destruct H1 as (s1 & c1 & H1 & Hv1).
  exists s1. eexists. exists c1. eexists.
  split; [exact H1 | split].
  - apply (proceed_reservation_iff Scenario.emptyNet Scenario.person 100
             Scenario.walkedOnEdgeA Scenario.rideTaxi s1 c1 eq_refl H1).
    split; [exact Hv1 | split; reflexivity].
  - split; vm_compute; reflexivity.
Defined.

(** ** Cloning again *)

(** X25. Cloning is idempotent, and the clone of a stage fresh from the
    constructor is that stage: cloning only resets what activation, binding
    and arrival have written. *)
Theorem clone_idempotent :
  forall s : MSStageDriving,
    clone (clone s) = clone s
    /\ forall (destination : option MSEdge) (toStop : option MSStoppingPlace)
              (arrivalPos : float) (lines : list string)
              (intendedVeh : string) (intendedDepart : SUMOTime),
        clone (MSStageDriving_ctor destination toStop arrivalPos lines
                 intendedVeh intendedDepart)
        = MSStageDriving_ctor destination toStop arrivalPos lines intendedVeh
            intendedDepart.
Proof.
  intros s. split.
  - unfold clone, MSStageDriving_ctor. simpl.
    rewrite !list_to_set_set_iter. reflexivity.
  - intros. unfold clone, MSStageDriving_ctor. simpl.
    rewrite list_to_set_set_iter. reflexivity.
Qed.

(** * The statistics record on the stages of a run *)

Lemma stage_of_proceed_times (net : MSNet) (transportable : MSTransportable)
    (now : SUMOTime) (previous : MSStage) (s s' : MSStageDriving) :
  stage_of (proceed net transportable now previous s) = Some s' ->
  myWaitingSince s' = now
  /\ myDeparted s' = myDeparted s
  /\ myArrived s' = myArrived s.
Proof.
  intros Hstage.
  destruct (stage_of_proceed _ _ _ _ _ _ Hstage)
    as (s1 & [-> | (e & sp & p & ->)] & [-> | [v ->]]);
    repeat split; reflexivity.
Qed.

Lemma setArrived_times (veh : VehicleStore) (now : SUMOTime)
    (s : MSStageDriving) :
  myWaitingSince (fst (setArrived veh now s)) = myWaitingSince s
  /\ myDeparted (fst (setArrived veh now s)) = myDeparted s
  /\ myArrived (fst (setArrived veh now s)) = now.
Proof.
  destruct_stage s v; unfold setArrived, MSStage_setArrived; simpl;
    [destruct (isStopped (veh v)) | ]; repeat split.
Qed.

Lemma lifecycle_timestamps (phase : Phase) (clock : SUMOTime)
    (s : MSStageDriving) :
  lifecycle phase clock s -> timestamps_in_order phase clock s.
Proof.
  induction 1 as
    [clock destination toStop arrivalPos lines intendedVeh intendedDepart Hclock
    | clock now net transportable previous s s' Hlife IH Hle Hnow Hstage
    | clock veh v s Hlife IH
    | clock now s Hlife IH Hle Hnow
    | clock now veh s Hlife IH Hle Hnow];
    unfold timestamps_in_order in *.
  - split; [exact Hclock | repeat split].
  - destruct IH as (Hclock & Hws & Hdep & Harr).
    destruct (stage_of_proceed_times _ _ _ _ _ _ Hstage) as (-> & -> & ->).
    unfold simulationTime in *. split; [exact Hnow | ].
    split; [lia | split; left; assumption].
  - exact IH.
  - destruct IH as (Hclock & Hws & Hdep & Harr).
    unfold simulationTime in *. split; [exact Hnow | ].
    unfold MSStage_setDeparted.
    destruct (myDeparted s <? 0) eqn:Hunset; simpl.
    + split; [lia | split; [right; lia | ]].
      destruct Harr as [Harr | Harr]; [left; exact Harr | right; lia].
    + split; [lia | split].
      * destruct Hdep as [Hdep | Hdep]; [left; exact Hdep | right; lia].
      * destruct Harr as [Harr | Harr]; [left; exact Harr | right; lia].
  - destruct IH as (Hclock & Hws & Hdep & Harr).
    destruct (setArrived_times veh now s) as (-> & -> & ->).
    unfold simulationTime in *. split; [exact Hnow | ].
    split; [lia | split; [ | right; lia]].
    destruct Hdep as [Hdep | Hdep]; [left; exact Hdep | right; lia].
Qed.

Lemma lifecycle_waitingSince_le_departure (phase : Phase)
    (clock now : SUMOTime) (s : MSStageDriving) :
  lifecycle phase clock s ->
  clock <= now ->
  myWaitingSince s <= effectiveDeparture now s.
Proof.
  intros Hlife Hle. apply lifecycle_timestamps in Hlife.
  destruct Hlife as (Hclock & Horder). unfold simulationTime in Hclock.
  unfold effectiveDeparture.
  destruct phase.
  - destruct Horder as (-> & -> & _). simpl. lia.
  - destruct Horder as (Hws & [-> | Hdep] & _); [simpl; lia | ].
    destruct (0 <=? myDeparted s); lia.
  - destruct Horder as (Hws & [-> | Hdep] & _); [simpl; lia | ].
    destruct (0 <=? myDeparted s); lia.
Qed.

(** On the stages of a run the differences [tripInfoOutput] computes are
    [SUMOTime] values: the 64-bit subtractions of the source do not
    overflow, and give the integers of the model. *)
Lemma lifecycle_differences_representable (phase : Phase)
    (clock now : SUMOTime) (s : MSStageDriving) :
  lifecycle phase clock s ->
  clock <= now ->
  simulationTime now ->
  SUMOTime_representable (effectiveDeparture now s - myWaitingSince s)
  /\ SUMOTime_representable (myArrived s - myDeparted s)
  /\ SUMOTime_representable (now - myDeparted s).
Proof.
  intros Hlife Hle Hnow. apply lifecycle_timestamps in Hlife.
  destruct Hlife as (Hclock & Horder).
  unfold simulationTime, SUMOTime_representable, effectiveDeparture in *.
  destruct phase.
  - destruct Horder as (-> & -> & ->). simpl. lia.
  - destruct Horder as (Hws & Hdep & Harr).
    destruct (0 <=? myDeparted s);
      destruct Hdep as [Hdep | Hdep]; destruct Harr as [Harr | Harr]; lia.
  - destruct Horder as (Hws & Hdep & Harr).
    destruct (0 <=? myDeparted s);
      destruct Hdep as [Hdep | Hdep]; destruct Harr as [Harr | Harr]; lia.
Qed.

(** A clone starts a life of its own. *)
Lemma lifecycle_clone (clock : SUMOTime) (s : MSStageDriving) :
  simulationTime clock -> lifecycle Planned clock (clone s).
Proof. intros Hclock. unfold clone. apply life_constructed. exact Hclock. Qed.

(** C7. For every stage of a run, at every phase of its life, the record
    [tripInfoOutput] writes at the current time holds as waiting time the
    effective departure time minus [waitingSince], or "-1" if
    [waitingSince] was never set, and as duration arrival minus departure
    if arrived, else [now] minus departure if departed but not arrived,
    else "-1". *)
Theorem tripInfoOutput_record_of_run :
  forall (phase : Phase) (clock now : SUMOTime)
         (transportable : MSTransportable) (s : MSStageDriving),
    lifecycle phase clock s ->
    clock <= now ->
    attr "waitingTime" (attrs (snd (tripInfoOutput now transportable s)))
    = Some (if 0 <=? myWaitingSince s
            then ATime (effectiveDeparture now s - myWaitingSince s)
            else AString "-1")
    /\ attr "duration" (attrs (snd (tripInfoOutput now transportable s)))
       = Some (if 0 <=? myArrived s then ATime (myArrived s - myDeparted s)
               else if 0 <=? myDeparted s then ATime (now - myDeparted s)
                    else AString "-1").
Proof.
  intros phase clock now transportable s Hlife Hle. split.
  - rewrite (tripInfoOutput_waitingTime_ordered now transportable s
               (lifecycle_waitingSince_le_departure _ _ _ _ Hlife Hle)).
    reflexivity.
  - apply tripInfoOutput_duration_attr.
Qed.

(** A ride from planning to arrival: activated at 100 at "stopA", bound,
    departed at 160, arrived at 900. *)
Lemma lifecycle_of_a_ride :
  exists s1 : MSStageDriving,
    stage_of (proceed Scenario.emptyNet Scenario.person 100
                Scenario.walkedToStopA Scenario.rideBus) = Some s1
    /\ lifecycle Terminated 900
         (fst (setArrived Scenario.atArrival 900
                 (MSStage_setDeparted 160
                    (setVehicle Scenario.atBoarding 0%nat s1)))).
Proof.
  eexists. split; [vm_compute; reflexivity | ].
  apply (life_setArrived 160 900); [ | lia | unfold simulationTime; lia].
  apply (life_setDeparted 100 160); [ | lia | unfold simulationTime; lia].
  apply life_setVehicle.
  apply (life_proceed 0 100 Scenario.emptyNet Scenario.person
           Scenario.walkedToStopA Scenario.rideBus);
    [ | lia | unfold simulationTime; lia | vm_compute; reflexivity].
  apply life_constructed. unfold simulationTime. lia.
Qed.

Lemma tripInfoOutput_record_of_run_witness :
  exists s : MSStageDriving,
    lifecycle Terminated 900 s
    /\ attr "waitingTime"
         (attrs (snd (tripInfoOutput 900 Scenario.person s)))
       = Some (ATime 60)
    /\ attr "duration" (attrs (snd (tripInfoOutput 900 Scenario.person s)))
       = Some (ATime 740).
Proof.
  destruct lifecycle_of_a_ride as (s1 & Hs1 & Hlife).
  eexists. split; [exact Hlife | ].
  destruct (tripInfoOutput_record_of_run Terminated 900 900 Scenario.person
              _ Hlife ltac:(lia)) as (Hwait & Hdur).
  rewrite Hwait, Hdur.
  vm_compute in Hs1. injection Hs1 as <-.
  vm_compute. split; reflexivity.
Defined.
